(** * SmartClause 2.0: the mobile-money payment core

    A shallow embedding of the payment workflow of the repository:
    - [mpesa_handler.py]                 the gateway client ([MpesaHandler]);
    - [SmartClause_2.0/database.py]      the transaction store operations the
                                         payment core calls;
    - [SmartClause_2.0/subscription_manager.py]  the [PRICING] table and the
                                         [SubscriptionManager] interface;
    - [SmartClause_2.0/payment_flow.py]  the orchestrator ([PaymentFlowManager]);
    - [payment_verification.py]          the session payment guard.

    Python dictionaries are finite maps ([gmap]) from keys to dynamically typed
    values, exceptions are an explicit [Raise] outcome, the database is an
    explicit store that every operation threads, and everything the outside
    world decides (HTTP replies of the gateway, the clock) is an input. *)

From Stdlib Require Import ZArith String Ascii List Bool Lia DecimalString.
From stdpp Require Import base option list gmap strings sorting.

Local Open Scope string_scope.
Local Open Scope Z_scope.
Local Open Scope list_scope.

(** ** Python values, exceptions, outcomes *)

Module Py.

(** The dynamically typed values that travel through JSON bodies and
    database rows of the payment core. *)
Inductive value : Type :=
| VNone
| VStr (s : string)
| VInt (z : Z).

#[global] Instance value_eq_dec : EqDecision value.
Proof. solve_decision. Defined.

(** [bool(v)]: [None], the empty string and [0] are false. *)
Definition truthy (v : value) : bool :=
  match v with
  | VNone => false
  | VStr s => negb (String.eqb s "")
  | VInt z => negb (z =? 0)
  end.

(** Decimal rendering of an integer, as [str(int)] prints it. *)
Definition str_of_Z (z : Z) : string :=
  DecimalString.NilZero.string_of_int (Z.to_int z).

(** [str(v)]. *)
Definition str (v : value) : string :=
  match v with
  | VNone => "None"
  | VStr s => s
  | VInt z => str_of_Z z
  end.

(** [s.title()] on ASCII text: a letter that follows a letter is lowered,
    any other letter is raised. *)
Definition is_upper (c : ascii) : bool :=
  (65 <=? nat_of_ascii c)%nat && (nat_of_ascii c <=? 90)%nat.
Definition is_lower (c : ascii) : bool :=
  (97 <=? nat_of_ascii c)%nat && (nat_of_ascii c <=? 122)%nat.
Definition to_upper (c : ascii) : ascii :=
  if is_lower c then ascii_of_nat (nat_of_ascii c - 32) else c.
Definition to_lower (c : ascii) : ascii :=
  if is_upper c then ascii_of_nat (nat_of_ascii c + 32) else c.

Fixpoint title_from (previous_is_cased : bool) (s : string) : string :=
  match s with
  | EmptyString => EmptyString
  | String c s' =>
      if is_upper c || is_lower c
      then String (if previous_is_cased then to_lower c else to_upper c)
                  (title_from true s')
      else String c (title_from false s')
  end.

Definition title (s : string) : string := title_from false s.

(** A Python [dict] with string keys. *)
Abbreviation dict := (gmap string value).

(** [d.get(k, default)]. *)
Definition get (d : dict) (k : string) (default : value) : value :=
  match d !! k with
  | Some v => v
  | None => default
  end.

(** The exception classes the payment code raises or meets.
    [JSONDecodeError] (raised by [response.json()]) and [MissingSchema]
    (raised by [requests] for a URL without a scheme) are subclasses of
    [ValueError]; [RequestException] stands for the other transport failures
    of [requests] (connection errors, timeouts). *)
Inductive exn : Type :=
| ValueError (msg : string)
| JSONDecodeError
| MissingSchema
| RequestException
| AttributeError (attr : string)
| TypeError
| Exception (msg : string).

(** [isinstance(e, ValueError)]. *)
Definition is_ValueError (e : exn) : bool :=
  match e with
  | ValueError _ | JSONDecodeError | MissingSchema => true
  | _ => false
  end.

Inductive outcome (A : Type) : Type :=
| Ret (a : A)
| Raise (e : exn).
Arguments Ret {A} a.
Arguments Raise {A} e.

Definition bind {A B} (m : outcome A) (k : A → outcome B) : outcome B :=
  match m with
  | Ret a => k a
  | Raise e => Raise e
  end.

#[global] Instance outcome_ret : MRet outcome := @Ret.
#[global] Instance outcome_bind : MBind outcome :=
  λ A B k m, bind m k.

(** A Python [str] whose characters matter one by one (a phone number) is a
    list of Unicode code points. *)
Abbreviation text := (list N).

(** The code points of an ASCII literal. *)
Definition lit (s : string) : text :=
  map N_of_ascii (list_ascii_of_string s).

(** [s.startswith(p)]. *)
Fixpoint startswith (p s : text) : bool :=
  match p, s with
  | [], _ => true
  | _ :: _, [] => false
  | a :: p', b :: s' => (a =? b)%N && startswith p' s'
  end.

(** What the interpreter and its libraries provide and the payment code only
    calls: [str.isdigit] on one character (true for the ASCII digits and for
    the other code points Unicode classes as digits) and
    [hashlib.sha256(data.encode()).hexdigest()]. *)
Class Runtime : Type := {
  isdigit : N → bool;
  isdigit_ascii : ∀ c : N, (48 ≤ c ≤ 57)%N → isdigit c = true;
  sha256_hexdigest : text → string;
}.

(** Instants and durations are counted in microseconds, the resolution of
    [datetime] and [timedelta]. *)
Definition minutes (n : Z) : Z := n * 60 * 1000000.
Definition days (n : Z) : Z := n * 86400 * 1000000.

End Py.
Import Py.

(** ** mpesa_handler.py *)

Module Mpesa.
Section WithRuntime.
Context `{Runtime}.

(** [DataEncryption.hash_data]: the first 8 hex characters of the SHA-256. *)
Definition hash_data (data : text) : string :=
  String.substring 0 8 (sha256_hexdigest data).

(** [MpesaHandler._sanitize_phone_number]. The [except] clause logs and
    re-raises, so the outcome is that of the body. *)
Definition _sanitize_phone_number (phone_number : text) : outcome text :=
  let phone_digits := List.filter isdigit phone_number in
  let phone_digits :=
    if startswith (lit "0") phone_digits then
      lit "254" ++ drop 1 phone_digits
    else if startswith (lit "7") phone_digits && (length phone_digits =? 9)%nat then
      lit "254" ++ phone_digits
    else if negb (startswith (lit "254") phone_digits) then
      if (length phone_digits =? 9)%nat then lit "254" ++ phone_digits
      else phone_digits
    else phone_digits in
  if negb (startswith (lit "254") phone_digits && (length phone_digits =? 12)%nat)
  then Raise (ValueError "Invalid phone number format.")
  else Ret phone_digits.

(** What one HTTP exchange with the provider comes to: no reply at all
    ([requests] raises), or a reply with a status code whose body is a JSON
    object or is not JSON ([response.json()] raises). *)
Inductive http_reply : Type :=
| NoReply
| Reply (status_code : Z) (body : option dict).

(** [requests.get(url, ...)] and [requests.post(url, ...)]: a missing or
    empty URL has no scheme. *)
Definition request (url : option string) (net : http_reply)
  : outcome (Z * option dict) :=
  match url with
  | None => Raise MissingSchema
  | Some u =>
      if String.eqb u "" then Raise MissingSchema
      else match net with
           | NoReply => Raise RequestException
           | Reply status_code body => Ret (status_code, body)
           end
  end.

(** [response.json()]. *)
Definition json (body : option dict) : outcome dict :=
  match body with
  | Some d => Ret d
  | None => Raise JSONDecodeError
  end.

(** The attributes of a [MpesaHandler] that decide what its methods do.
    [password], [timestamp] and [headers] only fill request payloads. *)
Record MpesaHandler : Type := {
  business_shortcode : option string;
  till_number : option string;
  consumer_key : option string;
  consumer_secret : option string;
  access_token_url : option string;
  passkey : option string;
  stk_push_url : option string;
  query_status_url : option string;
  my_callback_url : option string;
  access_token : value;
}.

(** [not value] for the result of [os.getenv]. *)
Definition unset (v : option string) : bool :=
  match v with
  | None => true
  | Some s => String.eqb s ""
  end.

(** [self.access_token_url.split('?')[0]], as far as it can fail. *)
Definition split_url (url : option string) : outcome (option string) :=
  match url with
  | None => Raise (AttributeError "split")
  | Some _ => Ret url
  end.

(** [MpesaHandler.get_mpesa_access_token]; [VNone] is Python's [None]. *)
Definition get_mpesa_access_token (self : MpesaHandler) (net : http_reply)
  : outcome value :=
  base_url ← split_url (access_token_url self);
  res ← request base_url net;
  if negb (res.1 =? 200) then Ret VNone
  else
    json_response ← json res.2;
    match json_response !! "access_token" with
    | None => Ret VNone
    | Some token =>
        match token with
        | VNone => Ret VNone
        | VStr t =>
            if negb (truthy token) || (String.length t <? 10)%nat
            then Ret VNone else Ret token
        | VInt z => if negb (truthy token) then Ret VNone else Raise TypeError
        end
    end.

(** [MpesaHandler.__init__]: [env] is the process environment after
    [load_dotenv()], [net] the reply of the token endpoint. *)
Definition __init__ (env : gmap string string) (net : http_reply)
  : outcome MpesaHandler :=
  let self := {|
    business_shortcode := env !! "SAF_SHORTCODE";
    till_number := env !! "SAF_TILL_NUMBER";
    consumer_key := env !! "SAF_CONSUMER_KEY";
    consumer_secret := env !! "SAF_CONSUMER_SECRET";
    access_token_url := env !! "SAF_ACCESS_TOKEN_API";
    passkey := env !! "SAF_PASS_KEY";
    stk_push_url := env !! "SAF_STK_PUSH_API";
    query_status_url := env !! "SAF_STK_PUSH_QUERY_API";
    my_callback_url := env !! "CALLBACK_URL";
    access_token := VNone |} in
  let required_vars := [
    ("SAF_SHORTCODE", business_shortcode self);
    ("SAF_TILL_NUMBER", till_number self);
    ("SAF_CONSUMER_KEY", consumer_key self);
    ("SAF_CONSUMER_SECRET", consumer_secret self);
    ("SAF_ACCESS_TOKEN_API", access_token_url self);
    ("SAF_PASS_KEY", passkey self);
    ("SAF_STK_PUSH_API", stk_push_url self);
    ("CALLBACK_URL", my_callback_url self) ] in
  let missing_vars :=
    map fst (List.filter (λ nv, unset (snd nv)) required_vars) in
  match missing_vars with
  | _ :: _ => Raise (ValueError "Missing required environment variables.")
  | [] =>
      token ← get_mpesa_access_token self net;
      if negb (truthy token) then Raise (Exception "Failed to get access token")
      else Ret {|
        business_shortcode := business_shortcode self;
        till_number := till_number self;
        consumer_key := consumer_key self;
        consumer_secret := consumer_secret self;
        access_token_url := access_token_url self;
        passkey := passkey self;
        stk_push_url := stk_push_url self;
        query_status_url := query_status_url self;
        my_callback_url := my_callback_url self;
        access_token := token |}
  end.

Definition stk_validation_error : dict :=
  {[ "ResponseCode" := VStr "1";
     "errorMessage" := VStr "Invalid input. Please check your phone number and try again. If this issue persists, please report it using the Feedback tab in the Help Guide." ]}.

Definition stk_generic_error : dict :=
  {[ "ResponseCode" := VStr "1";
     "errorMessage" := VStr "An error occurred during payment initiation. Please try again later. If this issue persists, please report it using the Feedback tab in the Help Guide." ]}.

(** The [try] block of [MpesaHandler.initiate_stk_push]. The amount, the
    description, the account reference and the transient encryption of the
    phone number fill the payload and the log; the reply is the gateway's. *)
Definition initiate_stk_push_try (self : MpesaHandler) (phone_number : text)
    (net : http_reply) : outcome dict :=
  sanitized_phone ← _sanitize_phone_number phone_number;
  base_url ← split_url (stk_push_url self);
  response ← request base_url net;
  json response.2.

(** [MpesaHandler.initiate_stk_push]: [except ValueError] first, then
    [except Exception]; both return a structured response. *)
Definition initiate_stk_push (self : MpesaHandler) (phone_number : text)
    (net : http_reply) : outcome dict :=
  match initiate_stk_push_try self phone_number net with
  | Ret response_data => Ret response_data
  | Raise e =>
      if is_ValueError e then Ret stk_validation_error
      else Ret stk_generic_error
  end.

(** [MpesaHandler.query_stk_push]: the [except] clause logs and re-raises. *)
Definition query_stk_push (self : MpesaHandler) (checkout_request_id : string)
    (net : http_reply) : outcome dict :=
  match
    (response ← request (query_status_url self) net;
     json response.2)
  with
  | Ret response_data => Ret response_data
  | Raise e => Raise e
  end.

(** [validate_phone_number]: a handler is constructed from the environment
    before the number is sanitized, and only [ValueError] is caught. *)
Definition validate_phone_number (env : gmap string string) (net : http_reply)
    (phone : text) : outcome bool :=
  match (handler ← __init__ env net; _sanitize_phone_number phone) with
  | Ret sanitized => Ret true
  | Raise e => if is_ValueError e then Ret false else Raise e
  end.

(** [s[-4:]]. *)
Definition last_four (s : string) : string :=
  String.substring (String.length s - 4) 4 s.

(** [s[:n]], for a negative [n] too. *)
Definition slice_to (n : Z) (s : string) : string :=
  if 0 <=? n then String.substring 0 (Z.to_nat n) s
  else String.substring 0 (Z.to_nat (Z.of_nat (String.length s) + n)) s.

(** [string.ascii_uppercase + string.digits]. *)
Definition reference_alphabet : string := "ABCDEFGHIJKLMNOPQRSTUVWXYZ0123456789".

(** [''.join(random.choices(population, k=k))]: the i-th draw picks the
    character at index [floor(random() * 36)], which is [draw i] brought
    below 36; nothing is drawn when [k] is not positive. *)
Definition choices (draw : nat → nat) (k : Z) : string :=
  string_of_list_ascii
    (map (λ i, default "A"%char (String.get (draw i mod 36) reference_alphabet))
         (seq 0 (Z.to_nat k))).

(** [MpesaHandler.generate_account_reference]: [now] is [int(time.time())]. *)
Definition generate_account_reference (now : Z) (draw : nat → nat) (length : Z)
  : string :=
  let timestamp_part := last_four (str_of_Z now) in
  let random_chars_length := length - Z.of_nat (String.length timestamp_part) in
  let random_chars := choices draw random_chars_length in
  slice_to length (timestamp_part +:+ random_chars).

End WithRuntime.
End Mpesa.

(** ** SmartClause_2.0/database.py: the tables of the payment core *)

Module Database.

(** A row of [payment_transactions]. *)
Record transaction : Type := {
  user_id : string;
  amount : Z;
  transaction_type : string;
  checkout_request_id : value;
  phone_number_hash : string;
  credits_purchased : Z;
  payment_status : string;
  mpesa_receipt_number : value;
  transaction_date : Z;
  verification_attempts : Z;
  metadata : dict;
}.

(** A row of [user_subscriptions]: the credit balance and the end date of
    the individual subscription. *)
Record user_subscription : Type := {
  subscriber : string;
  credits_remaining : Z;
  subscription_end_date : option Z;
}.

(** A row of [organization_subscriptions]. *)
Record organization_subscription : Type := {
  organization_id : value;
  subscription_tier : value;
  status : string;
  seats_purchased : value;
  seats_used : Z;
  price_per_seat : Z;
  current_period_start : Z;
  current_period_end : Z;
  next_billing_date : Z;
}.

(** The database. Every request to it is taken to succeed: the [except]
    branches of the methods below, which log and give up, are not modelled. *)
Record store : Type := {
  payment_transactions : list transaction;
  user_subscriptions : list user_subscription;
  organization_subscriptions : list organization_subscription;
}.

Definition with_transactions (st : store) (txs : list transaction) : store :=
  {| payment_transactions := txs;
     user_subscriptions := user_subscriptions st;
     organization_subscriptions := organization_subscriptions st |}.

(** [.eq("checkout_request_id", checkout_request_id)]. *)
Definition has_checkout_id (checkout_request_id : string) (tx : transaction) : bool :=
  bool_decide (Database.checkout_request_id tx = VStr checkout_request_id).

(** [DatabaseManager.create_payment_transaction]: inserts a pending row. *)
Definition create_payment_transaction (user_id : string) (amount : Z)
    (transaction_type : string) (checkout_request_id : value)
    (phone_number_hash : string) (credits_purchased : Z)
    (organization_id seats tier : value) (now : Z) (st : store) : store :=
  let data := {|
    user_id := user_id;
    amount := amount;
    transaction_type := transaction_type;
    checkout_request_id := checkout_request_id;
    phone_number_hash := phone_number_hash;
    credits_purchased := credits_purchased;
    payment_status := "pending";
    mpesa_receipt_number := VNone;
    transaction_date := now;
    verification_attempts := 0;
    metadata := {[ "organization_id" := organization_id;
                   "seats" := seats;
                   "tier" := tier ]} |} in
  with_transactions st (payment_transactions st ++ [data]).

(** The [updates] of [update_payment_status] applied to one row. *)
Definition apply_status (status : string) (receipt_number : value)
    (tx : transaction) : transaction := {|
  user_id := user_id tx;
  amount := amount tx;
  transaction_type := transaction_type tx;
  checkout_request_id := Database.checkout_request_id tx;
  phone_number_hash := phone_number_hash tx;
  credits_purchased := credits_purchased tx;
  payment_status := status;
  mpesa_receipt_number :=
    if truthy receipt_number then receipt_number else mpesa_receipt_number tx;
  transaction_date := transaction_date tx;
  verification_attempts := verification_attempts tx;
  metadata := metadata tx |}.

(** [DatabaseManager.update_payment_status]:
    [update(updates).eq("checkout_request_id", checkout_request_id)],
    with no condition on the status the row has. *)
Definition update_payment_status (checkout_request_id : string)
    (status : string) (receipt_number : value) (st : store) : store :=
  with_transactions st
    (map (λ tx, if has_checkout_id checkout_request_id tx
                then apply_status status receipt_number tx else tx)
         (payment_transactions st)).

(** [DatabaseManager.get_payment_transaction_by_checkout_id]: [.single()]
    raises unless exactly one row matches, and the method then returns
    [None]. *)
Definition get_payment_transaction_by_checkout_id (st : store)
    (checkout_request_id : string) : option transaction :=
  match List.filter (has_checkout_id checkout_request_id) (payment_transactions st) with
  | [tx] => Some tx
  | _ => None
  end.

(** [DatabaseManager.create_organization_subscription]. *)
Definition create_organization_subscription (organization_id subscription_tier
    seats_purchased : value) (price_per_seat : Z) (now : Z) (st : store) : store :=
  let period_start := now in
  let period_end := period_start + days 30 in
  let data := {|
    organization_id := organization_id;
    subscription_tier := subscription_tier;
    status := "active";
    seats_purchased := seats_purchased;
    seats_used := 0;
    price_per_seat := price_per_seat;
    current_period_start := period_start;
    current_period_end := period_end;
    next_billing_date := period_end |} in
  {| payment_transactions := payment_transactions st;
     user_subscriptions := user_subscriptions st;
     organization_subscriptions := organization_subscriptions st ++ [data] |}.

(** [DatabaseManager.get_user_subscription]: [.single()] again. *)
Definition get_user_subscription (st : store) (user_id : string)
  : option user_subscription :=
  match List.filter (λ sub, String.eqb (subscriber sub) user_id)
          (user_subscriptions st) with
  | [sub] => Some sub
  | _ => None
  end.

Definition with_subscriptions (st : store) (subs : list user_subscription) : store :=
  {| payment_transactions := payment_transactions st;
     user_subscriptions := subs;
     organization_subscriptions := organization_subscriptions st |}.

(** [DatabaseManager.update_subscription_credits]: the new store and the
    updated row, or [None] when the user has no subscription to read. The
    balance is an integer in every row here, so [or 0] has nothing to
    replace. *)
Definition update_subscription_credits (user_id : string) (credits_delta : Z)
    (st : store) : store * option user_subscription :=
  match get_user_subscription st user_id with
  | None => (st, None)
  | Some sub =>
      let current_credits := credits_remaining sub in
      let new_credits := Z.max 0 (current_credits + credits_delta) in
      let updated (row : user_subscription) := {|
        subscriber := subscriber row;
        credits_remaining := new_credits;
        subscription_end_date := subscription_end_date row |} in
      (with_subscriptions st
         (map (λ row, if String.eqb (subscriber row) user_id then updated row else row)
              (user_subscriptions st)),
       Some (updated sub))
  end.

(** [.order("transaction_date", desc=True)]. *)
Definition newer_first (a b : transaction) : Prop :=
  transaction_date b ≤ transaction_date a.

#[global] Instance newer_first_dec (a b : transaction) : Decision (newer_first a b).
Proof. unfold newer_first. apply _. Defined.

(** [DatabaseManager.get_user_payment_history]. *)
Definition get_user_payment_history (st : store) (user_id : string)
  : list transaction :=
  merge_sort newer_first
    (List.filter (λ tx, String.eqb (Database.user_id tx) user_id)
       (payment_transactions st)).

(** [DatabaseManager.get_organization_subscription]: the one active row of
    the organization. *)
Definition get_organization_subscription (st : store) (organization_id : string)
  : option organization_subscription :=
  match List.filter
          (λ sub, bool_decide (Database.organization_id sub = VStr organization_id)
                  && String.eqb (status sub) "active")
          (organization_subscriptions st) with
  | [sub] => Some sub
  | _ => None
  end.

End Database.

(** ** SmartClause_2.0/subscription_manager.py *)

Module SubscriptionManager.

Definition TRIAL_TIER := "trial".
Definition INDIVIDUAL_TIER := "individual".
Definition TEAM_TIER := "team".
Definition ENTERPRISE_TIER := "enterprise".

Record tier_config : Type := {
  amount : Z;
  documents_per_month : option Z;
  name : string;
  per_user : bool;
  min_seats : option Z;
  trial_days : option Z;
}.

(** [PRICING], in KSh minor units. *)
Definition PRICING : gmap string tier_config :=
  {[ TRIAL_TIER := {| amount := 0; documents_per_month := None;
                      name := "Free Trial"; per_user := false;
                      min_seats := None; trial_days := Some 14 |};
     INDIVIDUAL_TIER := {| amount := 850000; documents_per_month := Some 50;
                           name := "Individual"; per_user := true;
                           min_seats := None; trial_days := None |};
     TEAM_TIER := {| amount := 650000; documents_per_month := Some 100;
                     name := "Team"; per_user := true;
                     min_seats := Some 3; trial_days := None |};
     ENTERPRISE_TIER := {| amount := 500000; documents_per_month := None;
                           name := "Enterprise"; per_user := true;
                           min_seats := Some 10; trial_days := None |} ]}.

(** The attributes of a [SubscriptionManager]: the two fields [__init__]
    sets and the methods the class body defines (lines 63 to 340). The class
    has no base class and no [__getattr__]. *)
Definition attributes : list string :=
  [ "db"; "org_manager"; "__init__"; "get_user_status"; "has_access";
    "can_generate_document"; "record_document_generation";
    "initialize_user_subscription"; "upgrade_to_tier";
    "get_organization_info"; "get_organization_subscription";
    "get_organization_members"; "get_organization_usage";
    "get_pricing_info"; "get_tier_features" ].

(** Attribute lookup on an instance. *)
Definition getattr (attr : string) : outcome unit :=
  if bool_decide (attr ∈ attributes) then Ret () else Raise (AttributeError attr).

(** [self.subscription_mgr.add_credits(user_id, credits)] and
    [self.subscription_mgr.upgrade_to_standard(user_id, end_date)], the two
    calls of [payment_flow.py] into this class: neither name is an attribute
    of it, so each call stops at the lookup. *)
Definition add_credits (user_id : string) (credits : Z) : outcome unit :=
  getattr "add_credits".

Definition upgrade_to_standard (user_id : string) (end_date : Z) : outcome unit :=
  getattr "upgrade_to_standard".

End SubscriptionManager.

(** ** SmartClause_2.0/payment_flow.py *)

Module PaymentFlow.
Import Database.

(** Code that reads and writes the database and may raise: the writes made
    before an exception stay. *)
Definition M (A : Type) : Type := store → store * outcome A.

#[global] Instance M_ret : MRet M := λ A a st, (st, Ret a).
#[global] Instance M_bind : MBind M := λ A B k m st,
  match m st with
  | (st', Ret a) => k a st'
  | (st', Raise e) => (st', Raise e)
  end.

Definition lift {A} (o : outcome A) : M A := λ st, (st, o).
Definition write (f : store → store) : M unit := λ st, (f st, Ret ()).

(** What [initiate_organization_purchase] returns: the dictionary with
    [success = True], or the one with [success = False] and a message. *)
Inductive initiation : Type :=
| Initiated (checkout_request_id : value) (amount : Z)
| NotInitiated (message : value).

(** What [verify_and_process_payment] returns, one constructor for each
    [return] of the method. *)
Inductive verification : Type :=
| TransactionNotFound
| AlreadyProcessed
| CreditsAdded (credits_added : Z)
| SubscriptionExtended (subscription_end_date : Z)
| OrganizationActivated (tier : string)
| PaymentFailed
| TimedOut
| VerificationError.

(** The ["success"] key of the returned dictionary. *)
Definition success (r : verification) : bool :=
  match r with
  | AlreadyProcessed | CreditsAdded _ | SubscriptionExtended _
  | OrganizationActivated _ => true
  | TransactionNotFound | PaymentFailed | TimedOut | VerificationError => false
  end.

(** The ["already_processed"] key, as [result.get("already_processed")]
    reads it. *)
Definition already_processed (r : verification) : bool :=
  match r with
  | AlreadyProcessed => true
  | _ => false
  end.

(** The ["message"] key. *)
Definition message (r : verification) : string :=
  match r with
  | TransactionNotFound => "Transaction not found"
  | AlreadyProcessed => "Payment already processed"
  | CreditsAdded n =>
      "Payment successful! " +:+ str_of_Z n +:+ " credit(s) added."
  | SubscriptionExtended _ =>
      "Payment successful! You now have Standard access."
  | OrganizationActivated t =>
      "Payment successful! " +:+ title t +:+ " subscription active."
  | PaymentFailed => "Payment was cancelled or failed. Please try again."
  | TimedOut =>
      "Payment verification timed out. Please contact support if amount was deducted."
  | VerificationError =>
      "An error occurred during verification. Please try again."
  end.

(** [seats > 0]: Python 3 refuses to order [None] or a string against an
    integer. *)
Definition greater_than_zero (seats : value) : outcome bool :=
  match seats with
  | VInt n => Ret (0 <? n)
  | _ => Raise TypeError
  end.

(** [int(amount / seats)] for integers [amount] and [seats > 0]: the
    quotient, truncated. (The float division is exact enough for that below
    2^52, far above any amount of money here.) *)
Definition int_quotient (amount : Z) (seats : value) : outcome Z :=
  match seats with
  | VInt n => Ret (Z.quot amount n)
  | _ => Raise TypeError
  end.

(** [tier.title()]. *)
Definition title_of (tier : value) : outcome string :=
  match tier with
  | VStr t => Ret (title t)
  | _ => Raise (AttributeError "title")
  end.

Section WithRuntime.
Context `{Runtime}.

(** [PaymentFlowManager.initiate_organization_purchase], as a function of
    the pricing table the module global [PRICING] holds. *)
Definition initiate_organization_purchase_with
    (PRICING : gmap string SubscriptionManager.tier_config)
    (mpesa : Mpesa.MpesaHandler) (user_id organization_id tier : string)
    (seats : Z) (phone_number : text) (now : Z) (net : Mpesa.http_reply)
    (st : store) : store * initiation :=
  match PRICING !! tier with
  | None => (st, NotInitiated (VStr "Invalid subscription tier"))
  | Some tier_config =>
      let price_per_seat := SubscriptionManager.amount tier_config in
      let '(seats, amount) :=
        if String.eqb tier "individual" then (1, price_per_seat)
        else (seats, price_per_seat * seats) in
      let phone_hash := Mpesa.hash_data phone_number in
      match Mpesa.initiate_stk_push mpesa phone_number net with
      | Raise _ => (st, NotInitiated (VStr "An error occurred. Please try again."))
      | Ret response =>
          if bool_decide (get response "ResponseCode" VNone = VStr "0") then
            let checkout_request_id := get response "CheckoutRequestID" VNone in
            let st :=
              create_payment_transaction user_id amount
                "organization_subscription" checkout_request_id phone_hash 0
                (VStr organization_id) (VInt seats) (VStr tier) now st in
            (st, Initiated checkout_request_id amount)
          else
            let error_msg :=
              get response "errorMessage" (VStr "Payment initiation failed") in
            (st, NotInitiated error_msg)
      end
  end.

Definition initiate_organization_purchase :=
  initiate_organization_purchase_with SubscriptionManager.PRICING.

(** The body of the [try] inside the polling loop, for one attempt: [net] is
    what the gateway answers to this poll and [now] what the clock reads.
    [Some r] is [return r]; [None] is reaching the [time.sleep(delay)] at
    the end of the body. *)
Definition attempt (mpesa : Mpesa.MpesaHandler) (transaction : transaction)
    (checkout_request_id user_id : string) (now : Z) (net : Mpesa.http_reply)
  : M (option verification) :=
  response ← lift (Mpesa.query_stk_push mpesa checkout_request_id net);
  let result_code := str (get response "ResultCode" (VStr "")) in
  if String.eqb result_code "0" then
    let receipt_number := get response "MpesaReceiptNumber" (VStr "") in
    _ ← write (update_payment_status checkout_request_id "completed" receipt_number);
    let transaction_type := transaction_type transaction in
    let credits_purchased := credits_purchased transaction in
    if String.eqb transaction_type "credit_purchase" then
      _ ← lift (SubscriptionManager.add_credits user_id credits_purchased);
      mret (Some (CreditsAdded credits_purchased))
    else if String.eqb transaction_type "subscription" then
      let end_date := now + days 30 in
      _ ← lift (SubscriptionManager.upgrade_to_standard user_id end_date);
      mret (Some (SubscriptionExtended end_date))
    else if String.eqb transaction_type "organization_subscription" then
      let organization_id := get (metadata transaction) "organization_id" VNone in
      let seats := get (metadata transaction) "seats" (VInt 1) in
      let tier := get (metadata transaction) "tier" (VStr "individual") in
      if truthy organization_id then
        positive ← lift (greater_than_zero seats);
        price_per_seat ←
          lift (if positive : bool then int_quotient (amount transaction) seats
                else Ret 0);
        _ ← write (create_organization_subscription organization_id tier seats
                     price_per_seat now);
        _ ← lift (title_of tier);
        mret (Some (OrganizationActivated (str tier)))
      else mret None
    else mret None
  else if bool_decide (result_code ∈ ["1032"; "1037"; "1"]) then
    _ ← write (update_payment_status checkout_request_id "failed" VNone);
    mret (Some PaymentFailed)
  else mret None.

(** The [while attempts < max_attempts] loop: [remaining] is the number of
    iterations left, [max_attempts - attempts]. Each iteration either
    returns or adds one to [attempts], in the body or in the [except]
    clause. The gateway's answers and the clock are indexed by the attempt. *)
Fixpoint poll (mpesa : Mpesa.MpesaHandler) (transaction : transaction)
    (checkout_request_id user_id : string)
    (clock : nat → Z) (gateway : nat → Mpesa.http_reply)
    (remaining attempts : nat) (st : store) : store * verification :=
  match remaining with
  | O => (st, TimedOut)
  | S remaining' =>
      match attempt mpesa transaction checkout_request_id user_id
              (clock attempts) (gateway attempts) st with
      | (st', Ret (Some result)) => (st', result)
      | (st', Ret None) | (st', Raise _) =>
          poll mpesa transaction checkout_request_id user_id clock gateway
            remaining' (S attempts) st'
      end
  end.

(** [PaymentFlowManager.verify_and_process_payment]. Nothing outside the
    loop's own [try] raises, so the outer [except] clause, which returns
    [VerificationError], is never entered. *)
Definition verify_and_process_payment (mpesa : Mpesa.MpesaHandler)
    (checkout_request_id user_id : string) (max_attempts : Z)
    (clock : nat → Z) (gateway : nat → Mpesa.http_reply)
    (st : store) : store * verification :=
  match get_payment_transaction_by_checkout_id st checkout_request_id with
  | None => (st, TransactionNotFound)
  | Some transaction =>
      if String.eqb (payment_status transaction) "completed"
      then (st, AlreadyProcessed)
      else poll mpesa transaction checkout_request_id user_id clock gateway
             (Z.to_nat max_attempts) 0 st
  end.

(** [PaymentFlowManager.get_pending_payment] at the instant [now]: the first
    row of the history that is pending and less than 1800 seconds old. *)
Definition get_pending_payment (user_id : string) (now : Z) (st : store)
  : option transaction :=
  List.find (λ tx, String.eqb (payment_status tx) "pending"
                   && (now - transaction_date tx <? minutes 30))
            (get_user_payment_history st user_id).

End WithRuntime.
End PaymentFlow.

(** ** payment_verification.py: the session payment guard *)

Module PaymentVerification.

Record PaymentStatus : Type := {
  document_id : option string;
  checkout_request_id : string;
  amount : Z;
  timestamp : Z;
  verified : bool;
  attempts : Z;
}.

(** The three keys of [st.session_state] the guard owns. *)
Record session_state : Type := {
  payment_status : option PaymentStatus;
  payment_verified : bool;
  current_document_id : option string;
}.

(** [not document_id]. *)
Definition no_document (document_id : option string) : bool :=
  match document_id with
  | None => true
  | Some d => String.eqb d ""
  end.

(** [st.session_state.payment_status.document_id == document_id], for a
    [payment_status] that is not [None]. *)
Definition same_document (status : PaymentStatus) (document_id : option string) : bool :=
  bool_decide (PaymentVerification.document_id status = document_id).

(** [reset_payment_state], with the identifier [generate_document_id]
    draws. *)
Definition reset_payment_state (fresh_document_id : string)
    (session : session_state) : session_state :=
  {| payment_status := None;
     payment_verified := false;
     current_document_id := Some fresh_document_id |}.

(** [update_payment_status]: records an initiated payment at [now]. *)
Definition update_payment_status (checkout_request_id : string) (amount : Z)
    (now : Z) (session : session_state) : session_state :=
  let document_id := current_document_id session in
  {| payment_status := Some {|
       document_id := document_id;
       checkout_request_id := checkout_request_id;
       amount := amount;
       timestamp := now;
       verified := false;
       attempts := 0 |};
     payment_verified := false;
     current_document_id := current_document_id session |}.

(** One iteration of the loop of [verify_payment]: [Some b] is [return b],
    [None] is going round again, after the [sleep] or after the [except]
    clause. *)
Definition attempt (mpesa : Mpesa.MpesaHandler) (checkout_request_id : string)
    (net : Mpesa.http_reply) : option bool :=
  match Mpesa.query_stk_push mpesa checkout_request_id net with
  | Raise _ => None
  | Ret response =>
      let result_code :=
        match response !! "ResultCode" with
        | None | Some VNone => ""
        | Some v => str v
        end in
      if String.eqb result_code "0" then Some true
      else if bool_decide (result_code ∈ ["1032"; "1037"]) then Some false
      else None
  end.

Fixpoint poll (mpesa : Mpesa.MpesaHandler) (checkout_request_id : string)
    (gateway : nat → Mpesa.http_reply) (remaining attempts : nat) : bool :=
  match remaining with
  | O => false
  | S remaining' =>
      match attempt mpesa checkout_request_id (gateway attempts) with
      | Some b => b
      | None => poll mpesa checkout_request_id gateway remaining' (S attempts)
      end
  end.

(** [PaymentVerification.verify_payment]. *)
Definition verify_payment (mpesa : Mpesa.MpesaHandler) (session : session_state)
    (checkout_request_id : string) (document_id : option string)
    (max_attempts : Z) (gateway : nat → Mpesa.http_reply) : bool :=
  match payment_status session with
  | None => false
  | Some status =>
      if negb (same_document status document_id) then false
      else poll mpesa checkout_request_id gateway (Z.to_nat max_attempts) 0
  end.

(** [handle_download_request] at the instant [now]: the new session state
    and whether the download is allowed. [verify_payment] is called with
    its default [max_attempts = 5]. *)
Definition handle_download_request (mpesa : Mpesa.MpesaHandler)
    (now : Z) (gateway : nat → Mpesa.http_reply)
    (session : session_state) : session_state * bool :=
  let document_id := current_document_id session in
  if no_document document_id then (session, false)
  else if payment_verified session
          && match payment_status session with
             | Some status => same_document status document_id
             | None => false
             end
  then (session, true)
  else match payment_status session with
  | None => (session, false)
  | Some status =>
      let payment_age := now - timestamp status in
      if minutes 30 <? payment_age then
        ({| payment_status := None;
            payment_verified := payment_verified session;
            current_document_id := current_document_id session |}, false)
      else if verify_payment mpesa session (checkout_request_id status)
                document_id 5 gateway
      then ({| payment_status := payment_status session;
               payment_verified := true;
               current_document_id := current_document_id session |}, true)
      else (session, false)
  end.

End PaymentVerification.

(** ** Concrete configurations, rows and gateway scripts used below *)

Module Samples.

(** An environment with all nine variables of [MpesaHandler.__init__]. *)
Definition full_env : gmap string string :=
  list_to_map [
    ("SAF_SHORTCODE", "174379");
    ("SAF_TILL_NUMBER", "174379");
    ("SAF_CONSUMER_KEY", "consumer-key");
    ("SAF_CONSUMER_SECRET", "consumer-secret");
    ("SAF_ACCESS_TOKEN_API", "https://gateway.example/oauth/v1/generate");
    ("SAF_PASS_KEY", "passkey");
    ("SAF_STK_PUSH_API", "https://gateway.example/stkpush/v1/processrequest");
    ("SAF_STK_PUSH_QUERY_API", "https://gateway.example/stkpushquery/v1/query");
    ("CALLBACK_URL", "https://smartclause.example/callback") ].

(** The token endpoint answering 200 with a usable token. *)
Definition token_granted : Mpesa.http_reply :=
  Mpesa.Reply 200 (Some {[ "access_token" := VStr "c9SQxWWhmdVRlyh0zh8gZDTkubVF" ]}).

(** The handler [__init__] builds from [full_env] and [token_granted]. *)
Definition mpesa : Mpesa.MpesaHandler := {|
  Mpesa.business_shortcode := Some "174379";
  Mpesa.till_number := Some "174379";
  Mpesa.consumer_key := Some "consumer-key";
  Mpesa.consumer_secret := Some "consumer-secret";
  Mpesa.access_token_url := Some "https://gateway.example/oauth/v1/generate";
  Mpesa.passkey := Some "passkey";
  Mpesa.stk_push_url := Some "https://gateway.example/stkpush/v1/processrequest";
  Mpesa.query_status_url := Some "https://gateway.example/stkpushquery/v1/query";
  Mpesa.my_callback_url := Some "https://smartclause.example/callback";
  Mpesa.access_token := VStr "c9SQxWWhmdVRlyh0zh8gZDTkubVF" |}.

(** The gateway answering a status query with a result code (and a receipt). *)
Definition answered (result_code : string) (receipt : string) : Mpesa.http_reply :=
  Mpesa.Reply 200 (Some {[ "ResultCode" := VStr result_code;
                            "MpesaReceiptNumber" := VStr receipt ]}).

(** The push request accepted by the gateway under checkout id "ws_CO_1". *)
Definition push_accepted : Mpesa.http_reply :=
  Mpesa.Reply 200 (Some {[ "ResponseCode" := VStr "0";
                            "CheckoutRequestID" := VStr "ws_CO_1" ]}).

(** The gateway still waiting for the payer: no result code yet. *)
Definition still_processing : Mpesa.http_reply :=
  Mpesa.Reply 500 (Some {[ "errorCode" := VStr "500.001.1001";
                            "errorMessage" := VStr "The transaction is being processed" ]}).

(** A runtime to run the code on ASCII phone numbers: [isdigit] is decided on
    the ASCII digits alone and the digest is a fixed string, no property
    below depending on what the hash of a phone number is. *)
Definition ascii_isdigit (c : N) : bool := (48 <=? c)%N && (c <=? 57)%N.

Definition ascii_isdigit_ascii (c : N) (Hc : (48 ≤ c ≤ 57)%N)
  : ascii_isdigit c = true :=
  andb_true_intro (conj (proj2 (N.leb_le 48 c) (proj1 Hc))
                        (proj2 (N.leb_le c 57) (proj2 Hc))).

Definition runtime : Runtime := {|
  isdigit := ascii_isdigit;
  isdigit_ascii := ascii_isdigit_ascii;
  sha256_hexdigest := λ _, "0f3a9c1e5b7d2a4c6e8f0a1b3c5d7e9f0f3a9c1e5b7d2a4c6e8f0a1b3c5d7e9f" |}.

(** The pricing table the repository's integration test installs. *)
Definition test_pricing : gmap string SubscriptionManager.tier_config :=
  {[ "individual" := {| SubscriptionManager.amount := 8500;
                        SubscriptionManager.documents_per_month := None;
                        SubscriptionManager.name := "Individual";
                        SubscriptionManager.per_user := true;
                        SubscriptionManager.min_seats := None;
                        SubscriptionManager.trial_days := None |};
     "team" := {| SubscriptionManager.amount := 6500;
                  SubscriptionManager.documents_per_month := None;
                  SubscriptionManager.name := "Team";
                  SubscriptionManager.per_user := true;
                  SubscriptionManager.min_seats := None;
                  SubscriptionManager.trial_days := None |} ]}.

(** A store with no transaction yet. *)
Definition empty_store : Database.store := {|
  Database.payment_transactions := [];
  Database.user_subscriptions := [];
  Database.organization_subscriptions := [] |}.

(** A gateway that gives the same answer to every poll, and one that follows
    a script and then goes silent. *)
Definition always (net : Mpesa.http_reply) : nat → Mpesa.http_reply := λ _, net.
Definition script (replies : list Mpesa.http_reply) : nat → Mpesa.http_reply :=
  λ i, nth i replies Mpesa.NoReply.

(** A clock that reads [t0] at the first poll and five seconds more at each
    later one. *)
Definition clock_from (t0 : Z) : nat → Z := λ i, t0 + Z.of_nat i * 5000000.

(** A store holding one transaction of user "u1" under checkout id
    "ws_CO_1", and the credit balance of "u1". *)
Definition row (transaction_type status : string) (amount credits : Z)
    (organization_id seats tier : value) : Database.transaction := {|
  Database.user_id := "u1";
  Database.amount := amount;
  Database.transaction_type := transaction_type;
  Database.checkout_request_id := VStr "ws_CO_1";
  Database.phone_number_hash := "0f3a9c1e";
  Database.credits_purchased := credits;
  Database.payment_status := status;
  Database.mpesa_receipt_number := VNone;
  Database.transaction_date := 0;
  Database.verification_attempts := 0;
  Database.metadata := {[ "organization_id" := organization_id;
                          "seats" := seats; "tier" := tier ]} |}.

Definition store_of (tx : Database.transaction) : Database.store := {|
  Database.payment_transactions := [tx];
  Database.user_subscriptions :=
    [ {| Database.subscriber := "u1"; Database.credits_remaining := 3;
         Database.subscription_end_date := None |} ];
  Database.organization_subscriptions := [] |}.

(** The row a credit purchase of 10 credits left behind. *)
Definition credit_purchase (status : string) : Database.transaction :=
  row "credit_purchase" status 6000 10 VNone VNone VNone.

(** The row an individual subscription purchase left behind. *)
Definition subscription (status : string) : Database.transaction :=
  row "subscription" status 7500 0 VNone VNone VNone.

(** The row of a purchase of 5 team seats for organization "org_456". *)
Definition team_purchase (status : string) : Database.transaction :=
  row "organization_subscription" status 3250000 0
      (VStr "org_456") (VInt 5) (VStr "team").

(** An organization purchase whose metadata names no organization. *)
Definition orphan_purchase (status : string) : Database.transaction :=
  row "organization_subscription" status 3250000 0 VNone (VInt 5) (VStr "team").

(** A session just opened, the same session once a payment of 100 has been
    recorded at instant 0 for the new document "doc_1", and that session once
    the payment has been verified one minute later. *)
Definition new_session : PaymentVerification.session_state := {|
  PaymentVerification.payment_status := None;
  PaymentVerification.payment_verified := false;
  PaymentVerification.current_document_id := None |}.

Definition paying_session : PaymentVerification.session_state :=
  PaymentVerification.update_payment_status "ws_CO_1" 100 0
    (PaymentVerification.reset_payment_state "doc_1" new_session).

Definition verified_session : PaymentVerification.session_state :=
  (PaymentVerification.handle_download_request mpesa (minutes 1)
     (always (answered "0" "RCT1")) paying_session).1.

(** A row of the sample store under another checkout id, date and user. *)
Definition dated (checkout_id user status : string) (date : Z)
  : Database.transaction := {|
  Database.user_id := user;
  Database.amount := 850000;
  Database.transaction_type := "organization_subscription";
  Database.checkout_request_id := VStr checkout_id;
  Database.phone_number_hash := "0f3a9c1e";
  Database.credits_purchased := 0;
  Database.payment_status := status;
  Database.mpesa_receipt_number := VNone;
  Database.transaction_date := date;
  Database.verification_attempts := 0;
  Database.metadata := {[ "organization_id" := VStr "org_456";
                          "seats" := VInt 1; "tier" := VStr "individual" ]} |}.

(** A history: an old pending payment, a completed one, two recent pending
    ones of "u1" (minutes 40 and 50) and a later one of "u2". *)
Definition history_store : Database.store := {|
  Database.payment_transactions :=
    [ dated "ws_CO_A" "u1" "pending" (minutes 5);
      dated "ws_CO_B" "u1" "pending" (minutes 50);
      dated "ws_CO_C" "u1" "completed" (minutes 55);
      dated "ws_CO_D" "u2" "pending" (minutes 58);
      dated "ws_CO_E" "u1" "pending" (minutes 40) ];
  Database.user_subscriptions :=
    [ {| Database.subscriber := "u1"; Database.credits_remaining := 3;
         Database.subscription_end_date := Some (days 10) |};
      {| Database.subscriber := "u2"; Database.credits_remaining := 7;
         Database.subscription_end_date := None |} ];
  Database.organization_subscriptions := [] |}.

(** Random draws for a reference. *)
Definition draws : nat → nat := λ i, (7 * i + 3)%nat.

(** A session whose recorded payment belongs to document "doc_1" while the
    current document is "doc_2". *)
Definition other_document_session : PaymentVerification.session_state := {|
  PaymentVerification.payment_status :=
    PaymentVerification.payment_status verified_session;
  PaymentVerification.payment_verified := true;
  PaymentVerification.current_document_id := Some "doc_2" |}.

End Samples.

(** * The vocabulary of the properties *)

Section Vocabulary.
Import Database PaymentFlow.

(** ** Phone numbers *)

(** Every character is a digit for [str.isdigit]. *)
Definition all_digits `{Runtime} (s : text) : Prop :=
  Forall (λ c, isdigit c = true) s.

(** Every character is one of the ten ASCII digits. *)
Definition ascii_digits (s : text) : bool :=
  forallb (λ c, (48 <=? c)%N && (c <=? 57)%N) s.

(** ** Configuration *)

(** The names [__init__] checks before anything else. *)
Definition required_names : list string :=
  [ "SAF_SHORTCODE"; "SAF_TILL_NUMBER"; "SAF_CONSUMER_KEY"; "SAF_CONSUMER_SECRET";
    "SAF_ACCESS_TOKEN_API"; "SAF_PASS_KEY"; "SAF_STK_PUSH_API"; "CALLBACK_URL" ].

(** ** Polls *)

(** The result code the loop reads from a response. *)
Definition result_code (response : dict) : string :=
  str (get response "ResultCode" (VStr "")).

(** A poll the gateway does not settle: the query raises, or it returns a
    result code that is neither the success code nor a terminal failure. *)
Definition unresolved (mpesa : Mpesa.MpesaHandler) (cid : string)
    (net : Mpesa.http_reply) : bool :=
  match Mpesa.query_stk_push mpesa cid net with
  | Raise _ => true
  | Ret response =>
      negb (String.eqb (result_code response) "0")
      && negb (bool_decide (result_code response ∈ ["1032"; "1037"; "1"]))
  end.

(** A poll the gateway answers with the success code, and the receipt number
    the loop reads from that answer. *)
Definition succeeded (mpesa : Mpesa.MpesaHandler) (cid : string)
    (net : Mpesa.http_reply) : bool :=
  match Mpesa.query_stk_push mpesa cid net with
  | Raise _ => false
  | Ret response => String.eqb (result_code response) "0"
  end.

Definition receipt_of (mpesa : Mpesa.MpesaHandler) (cid : string)
    (net : Mpesa.http_reply) : value :=
  match Mpesa.query_stk_push mpesa cid net with
  | Raise _ => VNone
  | Ret response => get response "MpesaReceiptNumber" (VStr "")
  end.

(** A poll the gateway answers with a terminal failure code. *)
Definition declined (mpesa : Mpesa.MpesaHandler) (cid : string)
    (net : Mpesa.http_reply) : bool :=
  match Mpesa.query_stk_push mpesa cid net with
  | Raise _ => false
  | Ret response => bool_decide (result_code response ∈ ["1032"; "1037"; "1"])
  end.

(** A transaction for which the success branch has no effect to apply: an
    organization purchase whose metadata names no organization, or a
    transaction of none of the three known types. *)
Definition unapplied (tx : Database.transaction) : bool :=
  if String.eqb (transaction_type tx) "organization_subscription"
  then negb (truthy (get (metadata tx) "organization_id" VNone))
  else negb (String.eqb (transaction_type tx) "credit_purchase")
       && negb (String.eqb (transaction_type tx) "subscription").

(** What one attempt can do to the store and hand back to the loop. *)
Inductive attempt_outcome (cid : string) (now : Z) (st : store)
  : store → outcome (option verification) → Prop :=
| Unsettled o :
    (∀ r, o ≠ Ret (Some r)) →
    attempt_outcome cid now st st o
| Declined :
    attempt_outcome cid now st
      (update_payment_status cid "failed" VNone st) (Ret (Some PaymentFailed))
| Marked receipt o :
    (∀ r, o ≠ Ret (Some r)) →
    attempt_outcome cid now st (update_payment_status cid "completed" receipt st) o
| Activated receipt org tier seats price :
    attempt_outcome cid now st
      (create_organization_subscription org (VStr tier) seats price now
         (update_payment_status cid "completed" receipt st))
      (Ret (Some (OrganizationActivated tier)))
| ActivatedThenRaised receipt org tier seats price e :
    attempt_outcome cid now st
      (create_organization_subscription org tier seats price now
         (update_payment_status cid "completed" receipt st))
      (Raise e).

(** ** Statuses *)

(** A row keeps its checkout id, and its status stays or becomes terminal. *)
Definition same_or_settled (old new : Database.transaction) : Prop :=
  checkout_request_id new = checkout_request_id old ∧
  (payment_status new = payment_status old
   ∨ payment_status new = "completed" ∨ payment_status new = "failed").

Definition settles (old new : list Database.transaction) : Prop :=
  Forall2 same_or_settled old new.

(** Terminal statuses are final: the reading of the specification under which
    no verification changes the status of a transaction that already reads
    [completed] or [failed]. *)
Definition terminal_status_is_final : Prop :=
  ∀ mpesa cid user_id max_attempts clock gateway st st' r tx tx',
    get_payment_transaction_by_checkout_id st cid = Some tx →
    payment_status tx = "completed" ∨ payment_status tx = "failed" →
    verify_and_process_payment mpesa cid user_id max_attempts clock gateway st
      = (st', r) →
    get_payment_transaction_by_checkout_id st' cid = Some tx' →
    payment_status tx' = payment_status tx.

(** No row is ever put back to [pending]. *)
Definition never_reopened (old new : list transaction) : Prop :=
  Forall2 (λ o n, checkout_request_id n = checkout_request_id o
                  ∧ (payment_status n = "pending" → payment_status o = "pending"))
          old new.

(** ** Transport *)

(** A transport problem (no reply) or a parsing problem (a body that is not
    JSON). *)
Definition transport_problem (net : Mpesa.http_reply) : bool :=
  match net with
  | Mpesa.NoReply | Mpesa.Reply _ None => true
  | Mpesa.Reply _ (Some _) => false
  end.

(** The reading of the specification under which [query_stk_push] never
    raises. *)
Definition query_stk_push_never_raises : Prop :=
  ∀ mpesa checkout_request_id net,
    ∃ response, Mpesa.query_stk_push mpesa checkout_request_id net = Ret response.

End Vocabulary.

(** ** The session guard *)

Section GuardVocabulary.
Import PaymentVerification.

(** The reading of the specification under which a payment older than 30
    minutes never authorizes the download, verified before or not. *)
Definition expired_payment_never_authorizes : Prop :=
  ∀ mpesa now gateway session status,
    payment_status session = Some status →
    minutes 30 < now - timestamp status →
    (handle_download_request mpesa now gateway session).2 = false.

End GuardVocabulary.

(** ** The gateway client, further *)

Section ClientVocabulary.

(** Every variable [__init__] checks is set and not empty. *)
Definition configured (env : gmap string string) : bool :=
  forallb (λ name, negb (Mpesa.unset (env !! name))) required_names.

(** The digit strings [_sanitize_phone_number] accepts: a leading "0" and ten
    digits, nine digits that start neither with "0" nor with "254", or
    twelve digits behind "254". *)
Definition accepted_digits (d : text) : bool :=
  (startswith (lit "0") d && (length d =? 10)%nat)
  || (negb (startswith (lit "0") d) && negb (startswith (lit "254") d)
      && (length d =? 9)%nat)
  || (startswith (lit "254") d && (length d =? 12)%nat).

(** The canonical form of an accepted digit string. *)
Definition canonical_digits (d : text) : text :=
  if startswith (lit "0") d then lit "254" ++ drop 1 d
  else if (length d =? 9)%nat then lit "254" ++ d
  else d.

(** An uppercase ASCII letter or an ASCII digit. *)
Definition reference_character (c : ascii) : bool :=
  is_upper c || ((48 <=? nat_of_ascii c)%nat && (nat_of_ascii c <=? 57)%nat).

(** Every character of a reference is one. *)
Definition reference_text (s : string) : bool :=
  forallb reference_character (list_ascii_of_string s).

End ClientVocabulary.

(** ** The orchestrator, further *)

Section FlowVocabulary.
Import Database PaymentFlow.

(** The test of the loop of [get_pending_payment]: pending and less than 30
    minutes old at [now]. *)
Definition fresh_pending (now : Z) (tx : transaction) : bool :=
  String.eqb (payment_status tx) "pending"
  && (now - transaction_date tx <? minutes 30).

(** What verification leaves alone: the individual subscriptions, the
    organization subscriptions already there, and every transaction under
    another checkout id. *)
Definition framed (cid : string) (before after : store) : Prop :=
  user_subscriptions after = user_subscriptions before
  ∧ organization_subscriptions before `prefix_of` organization_subscriptions after
  ∧ Forall2 (λ old new, has_checkout_id cid old = false → new = old)
      (payment_transactions before) (payment_transactions after).

End FlowVocabulary.

(** * Properties *)

(** ** The gateway client *)

Section GatewayClient.
Context `{Runtime}.

Lemma filter_ascii_digits (s : text) :
  ascii_digits s = true → List.filter isdigit s = s.
Proof.
  induction s as [|c s IH]; simpl; [done|].
  intros [[Hlo%N.leb_le Hhi%N.leb_le]%andb_prop Hs]%andb_prop.
  by rewrite isdigit_ascii, IH.
Qed.

Lemma filter_all_digits (s : text) : all_digits (List.filter isdigit s).
Proof.
  induction s as [|c s IH]; simpl; [constructor|].
  destruct (isdigit c) eqn:Hc; [by constructor|done].
Qed.

Lemma all_digits_254 (s : text) : all_digits s → all_digits (lit "254" ++ s).
Proof.
  intros Hs. change (lit "254") with [50%N; 53%N; 52%N]. simpl.
  repeat (constructor; [apply isdigit_ascii; lia|]). exact Hs.
Qed.

Lemma all_digits_drop (n : nat) (s : text) : all_digits s → all_digits (drop n s).
Proof. apply Forall_drop. Qed.

Lemma sanitized_is_canonical (raw r : text) :
  Mpesa._sanitize_phone_number raw = Ret r →
  startswith (lit "254") r = true ∧ length r = 12%nat ∧ all_digits r.
Proof.
  unfold Mpesa._sanitize_phone_number.
  pose proof (filter_all_digits raw) as Hd.
  set (d := List.filter isdigit raw) in *.
  set (r' := if startswith (lit "0") d then _ else _).
  assert (all_digits r') as Hr'.
  { subst r'. repeat case_match; auto using all_digits_254, all_digits_drop. }
  destruct (startswith (lit "254") r') eqn:Hp; simpl; [|done].
  destruct (length r' =? 12)%nat eqn:Hl; simpl; [|done].
  intros [= <-]. by apply Nat.eqb_eq in Hl.
Qed.

(** C8. [_sanitize_phone_number] maps "0712345678", "712345678" and
    "254712345678" to "254712345678", raises the validation error
    ([ValueError]) on "123", and whatever it returns starts with "254" and is
    exactly 12 characters long, each of them a digit. *)
Theorem sanitize_phone_number_canonical :
  Mpesa._sanitize_phone_number (lit "0712345678") = Ret (lit "254712345678") ∧
  Mpesa._sanitize_phone_number (lit "712345678") = Ret (lit "254712345678") ∧
  Mpesa._sanitize_phone_number (lit "254712345678") = Ret (lit "254712345678") ∧
  Mpesa._sanitize_phone_number (lit "123")
    = Raise (ValueError "Invalid phone number format.") ∧
  ∀ raw r : text,
    Mpesa._sanitize_phone_number raw = Ret r →
    startswith (lit "254") r = true ∧ length r = 12%nat ∧ all_digits r.
Proof.
  repeat split;
    try (unfold Mpesa._sanitize_phone_number;
         rewrite filter_ascii_digits by reflexivity;
         reflexivity).
  all: by eapply sanitized_is_canonical.
Qed.

End GatewayClient.

Section GatewayConfiguration.

Lemma filter_nonempty {A} (f : A → bool) (l : list A) (x : A) :
  In x l → f x = true → List.filter f l ≠ [].
Proof.
  intros Hin Hf Hnil.
  assert (In x (List.filter f l)) as Hx by (apply filter_In; auto).
  rewrite Hnil in Hx. destruct Hx.
Qed.

(** Construction fails at once, whatever the token endpoint would answer, when
    one of the eight listed variables is missing or empty. *)
Lemma init_fails_fast (env : gmap string string) (net : Mpesa.http_reply)
    (name : string) :
  name ∈ required_names →
  Mpesa.unset (env !! name) = true →
  Mpesa.__init__ env net
    = Raise (ValueError "Missing required environment variables.").
Proof.
  intros Hname Hunset. unfold Mpesa.__init__. cbv zeta.
  match goal with
  | |- context [List.filter ?f ?l] =>
      pose proof (filter_nonempty f l (name, env !! name)) as Hne;
      destruct (List.filter f l) as [|nv rest]
  end; [|reflexivity].
  exfalso. apply Hne; [|exact Hunset|reflexivity].
  unfold required_names in Hname. simpl.
  repeat (apply elem_of_cons in Hname as [->|Hname]; [tauto|]).
  by apply elem_of_nil in Hname.
Qed.

(** C10. With every variable set except the status-query URL
    [SAF_STK_PUSH_QUERY_API], construction succeeds and leaves
    [query_status_url] unset; the missing value is met only later, by every
    call of [query_stk_push], which raises. *)
Theorem init_accepts_missing_query_url :
  ∃ handler : Mpesa.MpesaHandler,
    Mpesa.__init__ (delete "SAF_STK_PUSH_QUERY_API" Samples.full_env)
      Samples.token_granted = Ret handler ∧
    Mpesa.query_status_url handler = None ∧
    ∀ (checkout_request_id : string) (net : Mpesa.http_reply),
      Mpesa.query_stk_push handler checkout_request_id net = Raise MissingSchema.
Proof.
  eexists. split; [vm_compute; reflexivity|]. split; [reflexivity|].
  intros cid net. reflexivity.
Qed.

End GatewayConfiguration.

(** ** The transaction store *)

Section TransactionStore.
Import Database.

Lemma has_checkout_id_apply_status cid status receipt tx :
  has_checkout_id cid (apply_status status receipt tx) = has_checkout_id cid tx.
Proof. reflexivity. Qed.

Lemma filter_update cid status receipt (txs : list transaction) :
  List.filter (has_checkout_id cid)
    (map (λ tx, if has_checkout_id cid tx
                then apply_status status receipt tx else tx) txs)
  = map (apply_status status receipt) (List.filter (has_checkout_id cid) txs).
Proof.
  induction txs as [|tx txs IH]; simpl; [done|].
  destruct (has_checkout_id cid tx) eqn:Htx; simpl.
  - rewrite has_checkout_id_apply_status, Htx. simpl. by rewrite IH.
  - by rewrite Htx.
Qed.

(** Reading a transaction back after [update_payment_status]. *)
Lemma get_after_update cid status receipt st tx :
  get_payment_transaction_by_checkout_id st cid = Some tx →
  get_payment_transaction_by_checkout_id
    (update_payment_status cid status receipt st) cid
  = Some (apply_status status receipt tx).
Proof.
  unfold get_payment_transaction_by_checkout_id, update_payment_status. simpl.
  rewrite filter_update.
  destruct (List.filter _ _) as [|tx' [|]]; simpl; congruence.
Qed.

Lemma get_after_create_organization_subscription org tier seats price now st cid :
  get_payment_transaction_by_checkout_id
    (create_organization_subscription org tier seats price now st) cid
  = get_payment_transaction_by_checkout_id st cid.
Proof. reflexivity. Qed.

(** A row inserted under a checkout id no row had is the one read back. *)
Lemma get_after_create user amount type cid hash credits org seats tier now st :
  List.filter (has_checkout_id cid) (payment_transactions st) = [] →
  ∃ tx, get_payment_transaction_by_checkout_id
          (create_payment_transaction user amount type (VStr cid) hash credits
             org seats tier now st) cid = Some tx
        ∧ payment_status tx = "pending"
        ∧ transaction_type tx = type
        ∧ Database.amount tx = amount
        ∧ metadata tx = {[ "organization_id" := org; "seats" := seats; "tier" := tier ]}.
Proof.
  intros Hnone. eexists.
  unfold get_payment_transaction_by_checkout_id, create_payment_transaction. simpl.
  rewrite List.filter_app, Hnone. simpl.
  unfold has_checkout_id. simpl. rewrite bool_decide_eq_true_2 by done.
  repeat split; reflexivity.
Qed.

End TransactionStore.

(** ** The orchestrator's polling loop *)

Section PollingLoop.
Import Database PaymentFlow.

Variables (mpesa : Mpesa.MpesaHandler) (transaction : transaction).
Variables (cid user_id : string).

Ltac run_attempt Hq :=
  unfold attempt, mbind, M_bind, mret, M_ret, lift, write;
  rewrite Hq; cbv zeta;
  repeat match goal with
         | |- context [str (get ?response "ResultCode" (VStr ""))] =>
             change (str (get response "ResultCode" (VStr "")))
               with (result_code response)
         end.

Lemma attempt_raises now net st e :
  Mpesa.query_stk_push mpesa cid net = Raise e →
  attempt mpesa transaction cid user_id now net st = (st, Raise e).
Proof. intros Hq. by run_attempt Hq. Qed.

Lemma attempt_unresolved now net st :
  unresolved mpesa cid net = true →
  ∃ o, attempt mpesa transaction cid user_id now net st = (st, o)
       ∧ ∀ r, o ≠ Ret (Some r).
Proof.
  unfold unresolved. destruct (Mpesa.query_stk_push mpesa cid net) as [response|e] eqn:Hq.
  - intros [H0%negb_true_iff Hterm%negb_true_iff]%andb_prop.
    exists (Ret None). split; [|done].
    run_attempt Hq. by rewrite H0, Hterm.
  - intros _. exists (Raise e). split; [|done]. by apply attempt_raises.
Qed.

Lemma attempt_declined now net st :
  declined mpesa cid net = true →
  attempt mpesa transaction cid user_id now net st
  = (update_payment_status cid "failed" VNone st, Ret (Some PaymentFailed)).
Proof.
  unfold declined.
  destruct (Mpesa.query_stk_push mpesa cid net) as [response|e] eqn:Hq; [|done].
  intros Hcode. run_attempt Hq.
  destruct (String.eqb (result_code response) "0") eqn:H0.
  - apply String.eqb_eq in H0. rewrite H0 in Hcode. discriminate.
  - by rewrite Hcode.
Qed.

(** An unsettled poll uses up one attempt and leaves the store alone. *)
Lemma poll_unresolved clock gateway n i st :
  unresolved mpesa cid (gateway i) = true →
  poll mpesa transaction cid user_id clock gateway (S n) i st
  = poll mpesa transaction cid user_id clock gateway n (S i) st.
Proof.
  intros Hu. simpl.
  destruct (attempt_unresolved (clock i) (gateway i) st Hu) as (o & -> & Ho).
  destruct o as [[r|]|e]; [by destruct (Ho r)|done..].
Qed.

Lemma poll_all_unresolved clock gateway n i st :
  (∀ j, (j < n)%nat → unresolved mpesa cid (gateway (i + j)%nat) = true) →
  poll mpesa transaction cid user_id clock gateway n i st = (st, TimedOut).
Proof.
  revert i. induction n as [|n IH]; intros i Hall; [done|].
  rewrite poll_unresolved.
  - apply IH. intros j Hj. replace (S i + j)%nat with (i + S j)%nat by lia.
    apply Hall. lia.
  - replace i with (i + 0)%nat at 1 by lia. apply Hall. lia.
Qed.

(** A terminal failure code ends the loop at once. *)
Lemma poll_declined clock gateway n i st :
  declined mpesa cid (gateway i) = true →
  poll mpesa transaction cid user_id clock gateway (S n) i st
  = (update_payment_status cid "failed" VNone st, PaymentFailed).
Proof. intros Hd. simpl. by rewrite attempt_declined. Qed.

Ltac run_succeeded Hs :=
  unfold succeeded, receipt_of in *;
  match goal with
  | |- context [attempt _ _ _ _ _ ?net _] =>
      let response := fresh "response" in
      let Hq := fresh "Hq" in
      destruct (Mpesa.query_stk_push mpesa cid net) as [response|?] eqn:Hq;
      [|discriminate Hs]; run_attempt Hq; rewrite Hs
  end.

Lemma attempt_succeeded_unapplied now net st :
  succeeded mpesa cid net = true →
  unapplied transaction = true →
  attempt mpesa transaction cid user_id now net st
  = (update_payment_status cid "completed" (receipt_of mpesa cid net) st, Ret None).
Proof.
  intros Hs Hun. run_succeeded Hs. unfold unapplied in Hun.
  destruct (String.eqb (transaction_type transaction) "organization_subscription") eqn:Horg.
  - apply String.eqb_eq in Horg. rewrite Horg. simpl.
    apply negb_true_iff in Hun. by rewrite Hun.
  - apply andb_prop in Hun as [Hc%negb_true_iff Hsub%negb_true_iff].
    by rewrite Hc, Hsub.
Qed.

(** The success branch of a credit purchase stops at the call of
    [add_credits], after the status has been written. *)
Lemma attempt_succeeded_credit_purchase now net st :
  succeeded mpesa cid net = true →
  transaction_type transaction = "credit_purchase" →
  attempt mpesa transaction cid user_id now net st
  = (update_payment_status cid "completed" (receipt_of mpesa cid net) st,
     Raise (AttributeError "add_credits")).
Proof. intros Hs Htype. run_succeeded Hs. by rewrite Htype. Qed.

(** So does the one of an individual subscription, at [upgrade_to_standard]. *)
Lemma attempt_succeeded_subscription now net st :
  succeeded mpesa cid net = true →
  transaction_type transaction = "subscription" →
  attempt mpesa transaction cid user_id now net st
  = (update_payment_status cid "completed" (receipt_of mpesa cid net) st,
     Raise (AttributeError "upgrade_to_standard")).
Proof. intros Hs Htype. run_succeeded Hs. by rewrite Htype. Qed.

(** The success branch of an organization purchase with complete metadata. *)
Lemma attempt_succeeded_organization now net st (org tier : string) (seats : Z) :
  succeeded mpesa cid net = true →
  transaction_type transaction = "organization_subscription" →
  metadata transaction !! "organization_id" = Some (VStr org) →
  metadata transaction !! "seats" = Some (VInt seats) →
  metadata transaction !! "tier" = Some (VStr tier) →
  org ≠ "" → 0 < seats →
  attempt mpesa transaction cid user_id now net st
  = (create_organization_subscription (VStr org) (VStr tier) (VInt seats)
       (Z.quot (Database.amount transaction) seats) now
       (update_payment_status cid "completed" (receipt_of mpesa cid net) st),
     Ret (Some (OrganizationActivated tier))).
Proof.
  intros Hs Htype Horg Hseats Htier Hne Hpos. run_succeeded Hs.
  rewrite Htype. unfold get. rewrite Horg, Hseats, Htier. simpl.
  apply String.eqb_neq in Hne. rewrite Hne. simpl.
  apply Z.ltb_lt in Hpos. by rewrite Hpos.
Qed.

Lemma attempt_outcomes now net st :
  attempt_outcome cid now st
    (attempt mpesa transaction cid user_id now net st).1
    (attempt mpesa transaction cid user_id now net st).2.
Proof.
  destruct (Mpesa.query_stk_push mpesa cid net) as [response|e] eqn:Hq;
    [|rewrite (attempt_raises _ _ _ e) by done; by constructor].
  run_attempt Hq.
  destruct (String.eqb (result_code response) "0");
    [|case_bool_decide; simpl; by constructor].
  repeat (case_match; simpl; try by constructor).
  all: unfold greater_than_zero, int_quotient, title_of in *;
    repeat (case_match; simplify_eq/=); try by constructor.
Qed.

Lemma settles_refl txs : settles txs txs.
Proof. apply Forall_Forall2_diag, Forall_forall. intros tx _. split; auto. Qed.

Lemma settles_trans txs1 txs2 txs3 :
  settles txs1 txs2 → settles txs2 txs3 → settles txs1 txs3.
Proof.
  intros H12. revert txs3.
  induction H12 as [|a b l1 l2 [Hid Hab] _ IH]; intros txs3 H23;
    inversion H23 as [|? c ? l3 [Hid' Hbc] Hrest]; subst; constructor;
    [|by apply IH].
  split; [congruence|]. destruct Hbc as [Hbc|Hbc]; [rewrite Hbc|]; tauto.
Qed.

Lemma settles_update (c status : string) receipt st :
  status = "completed" ∨ status = "failed" →
  settles (payment_transactions st)
    (payment_transactions (update_payment_status c status receipt st)).
Proof.
  intros Hstatus. unfold update_payment_status. simpl.
  induction (payment_transactions st) as [|tx txs IH]; simpl; constructor; auto.
  destruct (has_checkout_id c tx); split; simpl; tauto.
Qed.

(** What an attempt leaves behind: rows only settle, the individual
    subscriptions are untouched, the transaction can still be read, and it
    reads [completed] whenever the attempt returns success. *)
Lemma attempt_outcome_sound now st st' o :
  attempt_outcome cid now st st' o →
  settles (payment_transactions st) (payment_transactions st')
  ∧ user_subscriptions st' = user_subscriptions st
  ∧ ∀ tx, get_payment_transaction_by_checkout_id st cid = Some tx →
      ∃ tx', get_payment_transaction_by_checkout_id st' cid = Some tx'
        ∧ ∀ r, o = Ret (Some r) → success r = true →
               payment_status tx' = "completed".
Proof.
  destruct 1 as [o Ho| |receipt o Ho|receipt org tier seats price
                |receipt org tier seats price e].
  - split; [apply settles_refl|]. split; [done|].
    intros tx Htx. exists tx. split; [done|]. intros r ->. by destruct (Ho r).
  - split; [apply settles_update; auto|]. split; [done|].
    intros tx Htx. eexists. split; [by apply get_after_update|].
    intros r [= <-]. done.
  - split; [apply settles_update; auto|]. split; [done|].
    intros tx Htx. eexists. split; [by apply get_after_update|].
    intros r ->. by destruct (Ho r).
  - split; [apply (settles_update cid "completed"); auto|]. split; [done|].
    intros tx Htx. eexists.
    split; [rewrite get_after_create_organization_subscription;
            by apply get_after_update|].
    done.
  - split; [apply (settles_update cid "completed"); auto|]. split; [done|].
    intros tx Htx. eexists.
    split; [rewrite get_after_create_organization_subscription;
            by apply get_after_update|].
    done.
Qed.

Lemma poll_sound clock gateway n i st st' r :
  poll mpesa transaction cid user_id clock gateway n i st = (st', r) →
  settles (payment_transactions st) (payment_transactions st')
  ∧ user_subscriptions st' = user_subscriptions st
  ∧ ∀ tx, get_payment_transaction_by_checkout_id st cid = Some tx →
      ∃ tx', get_payment_transaction_by_checkout_id st' cid = Some tx'
        ∧ (success r = true → payment_status tx' = "completed").
Proof.
  revert i st. induction n as [|n IH]; intros i st; simpl.
  - intros [= <- <-]. split; [apply settles_refl|]. split; [done|].
    intros tx Htx. exists tx. by split.
  - pose proof (attempt_outcomes (clock i) (gateway i) st) as Hout.
    apply attempt_outcome_sound in Hout as (Hs & Hu & Hget).
    destruct (attempt mpesa transaction cid user_id (clock i) (gateway i) st)
      as [st1 [[r1|]|e]]; simpl in *.
    + intros [= <- <-]. split; [done|]. split; [done|].
      intros tx Htx. destruct (Hget tx Htx) as (tx' & Htx' & Hc).
      exists tx'. split; [done|]. intros Hr. by apply (Hc r1).
    + intros Hpoll. apply IH in Hpoll as (Hs' & Hu' & Hget').
      split; [by eapply settles_trans|]. split; [congruence|].
      intros tx Htx. destruct (Hget tx Htx) as (tx1 & Htx1 & _). eauto.
    + intros Hpoll. apply IH in Hpoll as (Hs' & Hu' & Hget').
      split; [by eapply settles_trans|]. split; [congruence|].
      intros tx Htx. destruct (Hget tx Htx) as (tx1 & Htx1 & _). eauto.
Qed.

End PollingLoop.

(** ** Verification *)

Section Verification.
Import Database PaymentFlow.

Variables (mpesa : Mpesa.MpesaHandler) (cid : string).

(** C4. If every one of the [max_attempts] polls is unsettled (a non-terminal
    result code, or no usable answer at all), verification returns the failure
    with the timeout message and the store is exactly what it was: the
    transaction still reads [pending]. *)
Theorem timeout_leaves_transaction_pending
    (user_id : string) (max_attempts : Z) (clock : nat → Z)
    (gateway : nat → Mpesa.http_reply) (st : store) (tx : transaction) :
  get_payment_transaction_by_checkout_id st cid = Some tx →
  payment_status tx = "pending" →
  (∀ i, (i < Z.to_nat max_attempts)%nat → unresolved mpesa cid (gateway i) = true) →
  ∃ r, verify_and_process_payment mpesa cid user_id max_attempts clock gateway st
       = (st, r)
    ∧ success r = false
    ∧ message r = "Payment verification timed out. Please contact support if amount was deducted."
    ∧ ∃ tx', get_payment_transaction_by_checkout_id st cid = Some tx'
             ∧ payment_status tx' = "pending".
Proof.
  intros Htx Hpending Hall. exists TimedOut.
  unfold verify_and_process_payment. rewrite Htx, Hpending. simpl.
  rewrite poll_all_unresolved by (intros j Hj; by apply Hall).
  repeat split. by exists tx.
Qed.

(** When the success branch has nothing to apply, every successful poll only
    re-marks the row and the loop runs to its end. *)
Lemma poll_unapplied (tx : transaction) user_id clock gateway n i st t :
  unapplied tx = true →
  get_payment_transaction_by_checkout_id st cid = Some t →
  payment_status t = "completed" ∨ (1 ≤ n)%nat →
  (∀ j, (j < n)%nat → succeeded mpesa cid (gateway (i + j)%nat) = true) →
  ∃ st' t',
    poll mpesa tx cid user_id clock gateway n i st = (st', TimedOut)
    ∧ get_payment_transaction_by_checkout_id st' cid = Some t'
    ∧ payment_status t' = "completed".
Proof.
  intros Hun. revert i st t.
  induction n as [|n IH]; intros i st t Ht Hdone Hall; simpl.
  - destruct Hdone as [Hdone|?]; [|lia]. by exists st, t.
  - rewrite (attempt_succeeded_unapplied mpesa tx cid user_id); [|
      replace i with (i + 0)%nat at 1 by lia; apply Hall; lia | done].
    eapply IH.
    + by apply get_after_update.
    + by left.
    + intros j Hj. replace (S i + j)%nat with (i + S j)%nat by lia.
      apply Hall. lia.
Qed.

(** C5. For a pending transaction to which the success branch applies nothing
    (an organization purchase without an organization id in its metadata, or a
    transaction of no known type): if every poll returns the success code,
    the call ends with the timeout failure while the stored transaction reads
    [completed]; and if a successful poll is followed by a terminal failure
    code, the transaction marked [completed] ends up [failed]. *)
Theorem success_without_effect_falls_through
    (user_id : string) (max_attempts : Z) (clock : nat → Z)
    (gateway : nat → Mpesa.http_reply) (st : store) (tx : transaction) :
  get_payment_transaction_by_checkout_id st cid = Some tx →
  payment_status tx = "pending" →
  unapplied tx = true →
  (1 ≤ max_attempts →
   (∀ i, (i < Z.to_nat max_attempts)%nat → succeeded mpesa cid (gateway i) = true) →
   ∃ st' tx',
     verify_and_process_payment mpesa cid user_id max_attempts clock gateway st
       = (st', TimedOut)
     ∧ success TimedOut = false
     ∧ get_payment_transaction_by_checkout_id st' cid = Some tx'
     ∧ payment_status tx' = "completed")
  ∧ (2 ≤ max_attempts →
     succeeded mpesa cid (gateway 0%nat) = true →
     declined mpesa cid (gateway 1%nat) = true →
     ∃ st' tx',
       verify_and_process_payment mpesa cid user_id max_attempts clock gateway st
         = (st', PaymentFailed)
       ∧ get_payment_transaction_by_checkout_id st' cid = Some tx'
       ∧ payment_status tx' = "failed").
Proof.
  intros Htx Hpending Hun.
  unfold verify_and_process_payment. rewrite Htx, Hpending. simpl. split.
  - intros Hmax Hall.
    destruct (poll_unapplied tx user_id clock gateway (Z.to_nat max_attempts) 0 st tx)
      as (st' & tx' & Hpoll & Hget & Hstatus); auto; [right; lia|].
    by exists st', tx'.
  - intros Hmax Hs Hd.
    destruct (Z.to_nat max_attempts) as [|[|n]] eqn:Hn; [lia..|].
    simpl. rewrite (attempt_succeeded_unapplied mpesa tx cid user_id) by done.
    rewrite attempt_declined by done.
    eexists _, _. split; [reflexivity|].
    split; [by apply get_after_update, get_after_update|done].
Qed.

(** C1. Verifying a transaction stored as [completed] returns success with
    [already_processed] set and leaves the whole store, hence every credit
    balance, subscription and organization subscription, as it was; so after
    any verification that returned success, verifying again changes nothing
    and reports [already_processed]. *)
Theorem verify_is_idempotent :
  (∀ user_id max_attempts clock gateway st tx,
     get_payment_transaction_by_checkout_id st cid = Some tx →
     payment_status tx = "completed" →
     ∃ r, verify_and_process_payment mpesa cid user_id max_attempts clock gateway st
          = (st, r)
       ∧ success r = true ∧ already_processed r = true)
  ∧ (∀ user_id max_attempts clock gateway st st' r,
       verify_and_process_payment mpesa cid user_id max_attempts clock gateway st
         = (st', r) →
       success r = true →
       ∀ user_id' max_attempts' clock' gateway',
       ∃ r', verify_and_process_payment mpesa cid user_id' max_attempts' clock'
               gateway' st' = (st', r')
         ∧ success r' = true ∧ already_processed r' = true).
Proof.
  assert (∀ user_id max_attempts clock gateway st tx,
     get_payment_transaction_by_checkout_id st cid = Some tx →
     payment_status tx = "completed" →
     ∃ r, verify_and_process_payment mpesa cid user_id max_attempts clock gateway st
          = (st, r)
       ∧ success r = true ∧ already_processed r = true) as Hfirst.
  { intros user_id max_attempts clock gateway st tx Htx Hdone.
    exists AlreadyProcessed. unfold verify_and_process_payment.
    by rewrite Htx, Hdone. }
  split; [exact Hfirst|].
  intros user_id max_attempts clock gateway st st' r Hverify Hsuccess
    user_id' max_attempts' clock' gateway'.
  unfold verify_and_process_payment in Hverify.
  destruct (get_payment_transaction_by_checkout_id st cid) as [tx|] eqn:Htx;
    [|by simplify_eq].
  destruct (String.eqb (payment_status tx) "completed") eqn:Hdone.
  - simplify_eq. apply String.eqb_eq in Hdone. by eapply Hfirst.
  - apply poll_sound in Hverify as (_ & _ & Hget).
    destruct (Hget tx Htx) as (tx' & Htx' & Hcompleted).
    eapply Hfirst; eauto.
Qed.

(** C3. On the pending credit purchase of 10 credits, a poll answered with
    result code "0" and receipt "RCT1" marks the transaction [completed] with
    that receipt, but the call to [add_credits] that should follow has no
    method to reach: the balance is not changed and the caller is told the
    verification timed out. The same happens to a pending subscription
    purchase at [upgrade_to_standard]. *)
Theorem credit_purchase_success_is_not_applied :
  let gateway := Samples.always (Samples.answered "0" "RCT1") in
  let st := Samples.store_of (Samples.credit_purchase "pending") in
  let st2 := Samples.store_of (Samples.subscription "pending") in
  verify_and_process_payment Samples.mpesa "ws_CO_1" "u1" 1
    (Samples.clock_from 0) gateway st
  = (with_transactions st
       [apply_status "completed" (VStr "RCT1") (Samples.credit_purchase "pending")],
     TimedOut)
  ∧ verify_and_process_payment Samples.mpesa "ws_CO_1" "u1" 1
      (Samples.clock_from 0) gateway st2
    = (with_transactions st2
         [apply_status "completed" (VStr "RCT1") (Samples.subscription "pending")],
       TimedOut).
Proof. split; vm_compute; reflexivity. Qed.

End Verification.

(** ** Status transitions *)

Section StatusTransitions.
Import Database PaymentFlow.
Context `{Runtime}.

Lemma settles_never_reopened old new : settles old new → never_reopened old new.
Proof.
  induction 1 as [|o n old new [Hid Hstatus] _ IH]; constructor; [|done].
  split; [done|]. intros Hn.
  destruct Hstatus as [<-|[Hs|Hs]]; [done|rewrite Hs in Hn; discriminate..].
Qed.

Lemma verify_settles mpesa cid user_id max_attempts clock gateway st st' r :
  verify_and_process_payment mpesa cid user_id max_attempts clock gateway st
    = (st', r) →
  settles (payment_transactions st) (payment_transactions st').
Proof.
  unfold verify_and_process_payment.
  destruct (get_payment_transaction_by_checkout_id st cid) as [tx|];
    [|intros [= <- _]; apply settles_refl].
  destruct (String.eqb (payment_status tx) "completed");
    [intros [= <- _]; apply settles_refl|].
  intros Hpoll. by apply poll_sound in Hpoll as (Hs & _).
Qed.

Lemma initiate_appends PRICING mpesa user_id organization_id tier seats
    phone_number now net st :
  ∃ new,
    payment_transactions
      (initiate_organization_purchase_with PRICING mpesa user_id organization_id
         tier seats phone_number now net st).1
    = payment_transactions st ++ new
    ∧ Forall (λ tx, payment_status tx = "pending") new.
Proof.
  unfold initiate_organization_purchase_with.
  destruct (PRICING !! tier) as [config|];
    [|exists []; by rewrite app_nil_r].
  destruct (if String.eqb tier "individual" then _ else _) as [seats' amount'].
  destruct (Mpesa.initiate_stk_push mpesa phone_number net) as [response|e];
    [|exists []; by rewrite app_nil_r].
  case_bool_decide; [|exists []; by rewrite app_nil_r].
  eexists [_]. split; [reflexivity|]. by repeat constructor.
Qed.

(** C2, as the code has it. The payment core never puts a transaction back
    to [pending]: verification writes only [completed] or [failed] to existing
    rows and initiation only appends new pending rows. A transaction that
    reads [completed] when verification is called is reported as already
    processed and nothing is written. *)
Theorem status_never_reopens :
  (∀ mpesa cid user_id max_attempts clock gateway st st' r,
     verify_and_process_payment mpesa cid user_id max_attempts clock gateway st
       = (st', r) →
     never_reopened (payment_transactions st) (payment_transactions st'))
  ∧ (∀ mpesa cid user_id max_attempts clock gateway st tx,
       get_payment_transaction_by_checkout_id st cid = Some tx →
       payment_status tx = "completed" →
       verify_and_process_payment mpesa cid user_id max_attempts clock gateway st
         = (st, AlreadyProcessed))
  ∧ (∀ PRICING mpesa user_id organization_id tier seats phone_number now net st st' r,
       initiate_organization_purchase_with PRICING mpesa user_id organization_id
         tier seats phone_number now net st = (st', r) →
       ∃ new, payment_transactions st' = payment_transactions st ++ new
              ∧ Forall (λ tx, payment_status tx = "pending") new).
Proof.
  split; [|split].
  - intros * Hverify. by eapply settles_never_reopened, verify_settles.
  - intros * Htx Hdone. unfold verify_and_process_payment. by rewrite Htx, Hdone.
  - intros PRICING mpesa uid org tier seats phone now net st st' r Hinit.
    pose proof (initiate_appends PRICING mpesa uid org tier seats phone now net st)
      as Happ.
    by rewrite Hinit in Happ.
Qed.

End StatusTransitions.

(** C2, as stated, fails: a transaction stored as [failed] whose status query
    now answers with the success code is moved to [completed], because
    [update_payment_status] writes whatever the row's status is. *)
Lemma failed_transaction_becomes_completed : ¬ terminal_status_is_final.
Proof.
  intros Hfinal.
  pose (st := Samples.store_of (Samples.team_purchase "failed")).
  pose (run := PaymentFlow.verify_and_process_payment Samples.mpesa "ws_CO_1" "u1" 6
                 (Samples.clock_from 0)
                 (Samples.always (Samples.answered "0" "RCT1")) st).
  specialize (Hfinal Samples.mpesa "ws_CO_1" "u1" 6 (Samples.clock_from 0)
                (Samples.always (Samples.answered "0" "RCT1")) st run.1 run.2
                (Samples.team_purchase "failed")
                (Database.apply_status "completed" (VStr "RCT1")
                   (Samples.team_purchase "failed"))).
  discriminate Hfinal; [reflexivity|by right|by vm_compute|by vm_compute].
Qed.

(** ** Transport problems *)

Section TransportProblems.
Import Database PaymentFlow.
Context `{Runtime}.

Lemma initiate_stk_push_returns mpesa phone_number net :
  ∃ response, Mpesa.initiate_stk_push mpesa phone_number net = Ret response.
Proof.
  unfold Mpesa.initiate_stk_push.
  destruct (Mpesa.initiate_stk_push_try mpesa phone_number net) as [d|e]; [by eexists|].
  destruct (is_ValueError e); by eexists.
Qed.

Lemma initiate_stk_push_try_problem mpesa phone_number net :
  transport_problem net = true →
  ∃ e, Mpesa.initiate_stk_push_try mpesa phone_number net = Raise e.
Proof.
  intros Hnet. unfold Mpesa.initiate_stk_push_try.
  destruct (Mpesa._sanitize_phone_number phone_number) as [p|e]; [|by eexists].
  destruct (Mpesa.stk_push_url mpesa) as [url|]; [|by eexists].
  simpl. unfold mbind, outcome_bind, bind, Mpesa.request.
  destruct (String.eqb url ""); [by eexists|].
  destruct net as [|status [body|]]; [by eexists|done|by eexists].
Qed.

Lemma query_stk_push_problem mpesa checkout_request_id net :
  transport_problem net = true →
  ∃ e, Mpesa.query_stk_push mpesa checkout_request_id net = Raise e.
Proof.
  intros Hnet. unfold Mpesa.query_stk_push, Mpesa.request.
  destruct (Mpesa.query_status_url mpesa) as [url|]; [|by eexists].
  simpl. unfold mbind, outcome_bind, bind.
  destruct (String.eqb url ""); [by eexists|].
  destruct net as [|status [body|]]; [by eexists|done|by eexists].
Qed.

(** C6, as the code has it. [initiate_stk_push] never raises, and turns a
    transport or parsing problem into a structured response with response
    code "1" and an error message. [query_stk_push] re-raises such a problem;
    the polling loop catches it: the attempt is used up, the store is left
    alone and the loop goes on, exactly as for a result code that is not
    terminal. Only a terminal failure code ends the loop at once, with the
    failure. *)
Theorem transport_problems_are_retried :
  (∀ mpesa phone_number net,
     ∃ response, Mpesa.initiate_stk_push mpesa phone_number net = Ret response
       ∧ (transport_problem net = true →
          response !! "ResponseCode" = Some (VStr "1")
          ∧ is_Some (response !! "errorMessage")))
  ∧ (∀ mpesa checkout_request_id net,
       transport_problem net = true →
       ∃ e, Mpesa.query_stk_push mpesa checkout_request_id net = Raise e)
  ∧ (∀ mpesa transaction cid user_id clock gateway n i st,
       transport_problem (gateway i) = true →
       unresolved mpesa cid (gateway i) = true
       ∧ poll mpesa transaction cid user_id clock gateway (S n) i st
         = poll mpesa transaction cid user_id clock gateway n (S i) st)
  ∧ (∀ mpesa transaction cid user_id clock gateway n i st,
       declined mpesa cid (gateway i) = true →
       poll mpesa transaction cid user_id clock gateway (S n) i st
       = (update_payment_status cid "failed" VNone st, PaymentFailed)).
Proof.
  split; [|split; [|split]].
  - intros mpesa phone net.
    destruct (initiate_stk_push_returns mpesa phone net) as [response Hret].
    exists response. split; [done|]. intros Hnet.
    destruct (initiate_stk_push_try_problem mpesa phone net Hnet) as [e He].
    unfold Mpesa.initiate_stk_push in Hret. rewrite He in Hret.
    destruct (is_ValueError e); simplify_eq;
      (split; [vm_compute; reflexivity|eexists; vm_compute; reflexivity]).
  - apply query_stk_push_problem.
  - intros mpesa tx cid uid clock gateway n i st Hnet.
    destruct (query_stk_push_problem mpesa cid (gateway i) Hnet) as [e He].
    assert (unresolved mpesa cid (gateway i) = true) as Hu
      by (unfold unresolved; by rewrite He).
    split; [done|]. by apply poll_unresolved.
  - intros mpesa tx cid uid clock gateway n i st Hd. by apply poll_declined.
Qed.

End TransportProblems.

(** C6, as stated, fails for [query_stk_push]: when the gateway cannot be
    reached the method raises instead of returning a response. *)
Lemma query_stk_push_raises : ¬ query_stk_push_never_raises.
Proof.
  intros Hnever.
  destruct (Hnever Samples.mpesa "ws_CO_1" Mpesa.NoReply) as [response Hret].
  discriminate Hret.
Qed.

(** ** Organization purchases *)

Section OrganizationPurchase.
Import Database PaymentFlow.
Context `{Runtime}.

(** What an accepted push request leaves behind: one pending row carrying the
    organization, the seats and the tier, for the price per seat times the
    seats (one seat at the listed price for the individual tier). *)
Lemma initiate_accepted PRICING config mpesa user organization tier seats
    phone_number now net response checkout_id st :
  PRICING !! tier = Some config →
  Mpesa.initiate_stk_push mpesa phone_number net = Ret response →
  response !! "ResponseCode" = Some (VStr "0") →
  response !! "CheckoutRequestID" = Some (VStr checkout_id) →
  let price := SubscriptionManager.amount config in
  let billed := if String.eqb tier "individual" then (1, price)
                else (seats, price * seats) in
  initiate_organization_purchase_with PRICING mpesa user organization tier seats
    phone_number now net st
  = (create_payment_transaction user billed.2 "organization_subscription"
       (VStr checkout_id) (Mpesa.hash_data phone_number) 0
       (VStr organization) (VInt billed.1) (VStr tier) now st,
     Initiated (VStr checkout_id) billed.2).
Proof.
  intros Hconfig Hpush Hcode Hid. simpl.
  unfold initiate_organization_purchase_with. rewrite Hconfig, Hpush.
  unfold get. rewrite Hcode, Hid.
  rewrite bool_decide_eq_true_2 by done.
  by destruct (String.eqb tier "individual").
Qed.

(** C9. With tier "team", 5 seats and a price of 6500 per seat, initiation
    charges 6500 * 5 = 32500; and once a poll returns the success code,
    verification creates the organization subscription with 5 seats, tier
    "team", status active and a period of 30 days from the time of the poll. *)
Theorem team_purchase_of_five_seats
    (PRICING : gmap string SubscriptionManager.tier_config)
    (config : SubscriptionManager.tier_config)
    (mpesa : Mpesa.MpesaHandler) (user organization : string)
    (phone_number : text) (now : Z) (net : Mpesa.http_reply)
    (response : dict) (checkout_id : string) (st : store) :
  PRICING !! "team" = Some config →
  SubscriptionManager.amount config = 6500 →
  Mpesa.initiate_stk_push mpesa phone_number net = Ret response →
  response !! "ResponseCode" = Some (VStr "0") →
  response !! "CheckoutRequestID" = Some (VStr checkout_id) →
  organization ≠ "" →
  List.filter (has_checkout_id checkout_id) (payment_transactions st) = [] →
  ∃ st1,
    initiate_organization_purchase_with PRICING mpesa user organization "team" 5
      phone_number now net st = (st1, Initiated (VStr checkout_id) 32500)
    ∧ ∀ user' max_attempts clock gateway,
        1 ≤ max_attempts →
        succeeded mpesa checkout_id (gateway 0%nat) = true →
        ∃ st2 sub,
          verify_and_process_payment mpesa checkout_id user' max_attempts clock
            gateway st1 = (st2, OrganizationActivated "team")
          ∧ organization_subscriptions st2 = organization_subscriptions st ++ [sub]
          ∧ organization_id sub = VStr organization
          ∧ seats_purchased sub = VInt 5
          ∧ subscription_tier sub = VStr "team"
          ∧ status sub = "active"
          ∧ current_period_start sub = clock 0%nat
          ∧ current_period_end sub = current_period_start sub + days 30.
Proof.
  intros Hconfig Hprice Hpush Hcode Hid Horg Hfresh.
  eexists. split.
  { rewrite (initiate_accepted PRICING config _ _ _ _ _ _ _ _ response checkout_id)
      by done.
    simpl. rewrite Hprice. reflexivity. }
  intros user' max_attempts clock gateway Hmax Hsucceeded.
  unfold verify_and_process_payment.
  edestruct (get_after_create user (6500 * 5) "organization_subscription" checkout_id)
    as (tx & -> & Hpending & Htype & Hamount & Hmeta); [exact Hfresh|].
  rewrite Hpending. simpl.
  destruct (Z.to_nat max_attempts) as [|n] eqn:Hn; [lia|].
  simpl.
  rewrite (attempt_succeeded_organization mpesa tx checkout_id user' _ _ _
             organization "team" 5); try done; try (by rewrite Hmeta).
  eexists _, _. split; [reflexivity|]. simpl. repeat split.
Qed.

(** With the [PRICING] table of the module, whose amounts are in minor units,
    the same purchase is charged 650000 * 5. *)
Lemma team_purchase_in_minor_units mpesa user organization phone_number now net
    response checkout_id st :
  Mpesa.initiate_stk_push mpesa phone_number net = Ret response →
  response !! "ResponseCode" = Some (VStr "0") →
  response !! "CheckoutRequestID" = Some (VStr checkout_id) →
  (initiate_organization_purchase mpesa user organization "team" 5
     phone_number now net st).2 = Initiated (VStr checkout_id) 3250000.
Proof.
  intros Hpush Hcode Hid. unfold initiate_organization_purchase.
  assert (∃ config, SubscriptionManager.PRICING !! "team" = Some config
                    ∧ SubscriptionManager.amount config = 650000)
    as (config & Hconfig & Hprice) by (eexists; split; vm_compute; reflexivity).
  rewrite (initiate_accepted SubscriptionManager.PRICING config _ _ _ _ _ _ _ _
             response checkout_id) by done.
  simpl. by rewrite Hprice.
Qed.

End OrganizationPurchase.

(** ** The session payment guard *)

Section SessionGuard.
Import PaymentVerification.

(** C7, as the code has it. The download is allowed only if there is a
    current document and a payment status recorded for that document, and
    either the session is already marked verified or the payment is at most
    30 minutes old and the gateway confirms it now. A payment recorded at
    instant [T] for the current document and not yet verified can be
    authorized at [T] + 29 minutes and is refused at [T] + 31 minutes; once
    the session is marked verified the age is not looked at any more. *)
Theorem download_needs_fresh_or_verified_payment :
  (∀ mpesa now gateway session,
     (handle_download_request mpesa now gateway session).2 = true →
     no_document (current_document_id session) = false
     ∧ ∃ status,
         payment_status session = Some status
         ∧ document_id status = current_document_id session
         ∧ (payment_verified session = true
            ∨ (now - timestamp status ≤ minutes 30
               ∧ verify_payment mpesa session (checkout_request_id status)
                   (current_document_id session) 5 gateway = true)))
  ∧ (∀ mpesa cid amount T gateway session,
       no_document (current_document_id session) = false →
       let recorded := update_payment_status cid amount T session in
       (attempt mpesa cid (gateway 0%nat) = Some true →
        (handle_download_request mpesa (T + minutes 29) gateway recorded).2 = true)
       ∧ (handle_download_request mpesa (T + minutes 31) gateway recorded).2 = false)
  ∧ (∀ mpesa now gateway session status,
       no_document (current_document_id session) = false →
       payment_status session = Some status →
       document_id status = current_document_id session →
       payment_verified session = true →
       handle_download_request mpesa now gateway session = (session, true)).
Proof.
  split; [|split].
  - intros mpesa now gateway session. unfold handle_download_request.
    destruct (no_document (current_document_id session)) eqn:Hdoc; [done|].
    destruct (payment_status session) as [status|] eqn:Hstatus.
    + destruct (payment_verified session) eqn:Hverified; simpl.
      * destruct (same_document status (current_document_id session)) eqn:Hsame.
        -- intros _. split; [done|]. exists status.
           apply bool_decide_eq_true in Hsame. auto.
        -- destruct (minutes 30 <? now - timestamp status) eqn:Hage; [done|].
           unfold verify_payment. rewrite Hstatus, Hsame. done.
      * destruct (minutes 30 <? now - timestamp status) eqn:Hage; [done|].
        destruct (verify_payment _ _ _ _ _ _) eqn:Hverify; [|done].
        intros _. split; [done|]. exists status.
        apply Z.ltb_ge in Hage. pose proof Hverify as Hconfirmed.
        unfold verify_payment in Hverify. rewrite Hstatus in Hverify.
        destruct (same_document status (current_document_id session)) eqn:Hsame;
          [|done].
        apply bool_decide_eq_true in Hsame.
        split; [done|]. split; [done|]. right. by split.
    + rewrite andb_false_r. done.
  - intros mpesa cid amount T gateway session Hdoc recorded. subst recorded.
    unfold handle_download_request, update_payment_status. simpl.
    rewrite Hdoc. simpl. split.
    + intros Hfirst.
      replace (minutes 30 <? T + minutes 29 - T) with false
        by (symmetry; apply Z.ltb_ge; unfold minutes; lia).
      unfold verify_payment. simpl.
      unfold same_document. simpl. rewrite bool_decide_eq_true_2 by done.
      simpl. by rewrite Hfirst.
    + replace (minutes 30 <? T + minutes 31 - T) with true
        by (symmetry; apply Z.ltb_lt; unfold minutes; lia).
      done.
  - intros mpesa now gateway session status Hdoc Hstatus Hsame Hverified.
    unfold handle_download_request.
    rewrite Hdoc, Hverified, Hstatus. simpl.
    unfold same_document. by rewrite bool_decide_eq_true_2.
Qed.

End SessionGuard.

(** C7, as stated, fails: in a session whose payment was verified at minute 1,
    the download is still allowed at minute 31 without asking the gateway. *)
Lemma verified_payment_outlives_expiry : ¬ expired_payment_never_authorizes.
Proof.
  intros Hnever.
  specialize (Hnever Samples.mpesa (minutes 31) (Samples.always Mpesa.NoReply)
                Samples.verified_session
                {| PaymentVerification.document_id := Some "doc_1";
                   PaymentVerification.checkout_request_id := "ws_CO_1";
                   PaymentVerification.amount := 100;
                   PaymentVerification.timestamp := 0;
                   PaymentVerification.verified := false;
                   PaymentVerification.attempts := 0 |}).
  discriminate Hnever; by vm_compute.
Qed.

(** ** Concrete runs *)

(** [__init__] on the full environment builds the sample handler. *)
Example init_full_env :
  Mpesa.__init__ Samples.full_env Samples.token_granted = Ret Samples.mpesa.
Proof. vm_compute. reflexivity. Qed.

(** The phone number "0712345678" on the ASCII runtime. *)
Lemma sanitize_phone_number_canonical_witness :
  startswith (lit "254") (lit "254712345678") = true
  ∧ length (lit "254712345678") = 12%nat
  ∧ @all_digits Samples.runtime (lit "254712345678").
Proof.
  apply (proj2 (proj2 (proj2 (proj2
           (@sanitize_phone_number_canonical Samples.runtime))))
           (lit "0712345678") (lit "254712345678")).
  reflexivity.
Defined.

(** Six polls of a gateway that is still waiting for the payer. *)
Lemma timeout_leaves_transaction_pending_witness :
  ∃ r,
    PaymentFlow.verify_and_process_payment Samples.mpesa "ws_CO_1" "u1" 6
      (Samples.clock_from 0) (Samples.always Samples.still_processing)
      (Samples.store_of (Samples.credit_purchase "pending"))
    = (Samples.store_of (Samples.credit_purchase "pending"), r)
    ∧ PaymentFlow.success r = false
    ∧ PaymentFlow.message r = "Payment verification timed out. Please contact support if amount was deducted."
    ∧ ∃ tx', Database.get_payment_transaction_by_checkout_id
               (Samples.store_of (Samples.credit_purchase "pending")) "ws_CO_1"
             = Some tx'
             ∧ Database.payment_status tx' = "pending".
Proof.
  apply (timeout_leaves_transaction_pending Samples.mpesa "ws_CO_1" "u1" 6
           (Samples.clock_from 0) (Samples.always Samples.still_processing)
           (Samples.store_of (Samples.credit_purchase "pending"))
           (Samples.credit_purchase "pending")).
  - reflexivity.
  - reflexivity.
  - intros i _. reflexivity.
Defined.

(** An organization purchase without organization id: three successful polls,
    and a successful poll followed by a cancellation. *)
Lemma success_without_effect_falls_through_witness :
  (∃ st' tx',
     PaymentFlow.verify_and_process_payment Samples.mpesa "ws_CO_1" "u1" 3
       (Samples.clock_from 0) (Samples.always (Samples.answered "0" "RCT1"))
       (Samples.store_of (Samples.orphan_purchase "pending"))
     = (st', PaymentFlow.TimedOut)
     ∧ PaymentFlow.success PaymentFlow.TimedOut = false
     ∧ Database.get_payment_transaction_by_checkout_id st' "ws_CO_1" = Some tx'
     ∧ Database.payment_status tx' = "completed")
  ∧ (∃ st' tx',
       PaymentFlow.verify_and_process_payment Samples.mpesa "ws_CO_1" "u1" 3
         (Samples.clock_from 0)
         (Samples.script [Samples.answered "0" "RCT1"; Samples.answered "1032" ""])
         (Samples.store_of (Samples.orphan_purchase "pending"))
       = (st', PaymentFlow.PaymentFailed)
       ∧ Database.get_payment_transaction_by_checkout_id st' "ws_CO_1" = Some tx'
       ∧ Database.payment_status tx' = "failed").
Proof.
  split.
  - apply (proj1 (success_without_effect_falls_through Samples.mpesa "ws_CO_1"
             "u1" 3 (Samples.clock_from 0)
             (Samples.always (Samples.answered "0" "RCT1"))
             (Samples.store_of (Samples.orphan_purchase "pending"))
             (Samples.orphan_purchase "pending")
             eq_refl eq_refl eq_refl)).
    + lia.
    + intros i _. reflexivity.
  - apply (proj2 (success_without_effect_falls_through Samples.mpesa "ws_CO_1"
             "u1" 3 (Samples.clock_from 0)
             (Samples.script [Samples.answered "0" "RCT1"; Samples.answered "1032" ""])
             (Samples.store_of (Samples.orphan_purchase "pending"))
             (Samples.orphan_purchase "pending")
             eq_refl eq_refl eq_refl)).
    + lia.
    + reflexivity.
    + reflexivity.
Defined.

(** A completed team purchase verified again, and a pending one verified
    twice. *)
Lemma verify_is_idempotent_witness :
  (∃ r,
     PaymentFlow.verify_and_process_payment Samples.mpesa "ws_CO_1" "u1" 6
       (Samples.clock_from 0) (Samples.always (Samples.answered "0" "RCT1"))
       (Samples.store_of (Samples.team_purchase "completed"))
     = (Samples.store_of (Samples.team_purchase "completed"), r)
     ∧ PaymentFlow.success r = true ∧ PaymentFlow.already_processed r = true)
  ∧ (let first :=
       PaymentFlow.verify_and_process_payment Samples.mpesa "ws_CO_1" "u1" 6
         (Samples.clock_from 0) (Samples.always (Samples.answered "0" "RCT1"))
         (Samples.store_of (Samples.team_purchase "pending")) in
     ∃ r',
       PaymentFlow.verify_and_process_payment Samples.mpesa "ws_CO_1" "u1" 6
         (Samples.clock_from 60000000)
         (Samples.always (Samples.answered "0" "RCT1")) first.1
       = (first.1, r')
       ∧ PaymentFlow.success r' = true ∧ PaymentFlow.already_processed r' = true).
Proof.
  split.
  - apply (proj1 (verify_is_idempotent Samples.mpesa "ws_CO_1") "u1" 6
             (Samples.clock_from 0) (Samples.always (Samples.answered "0" "RCT1"))
             (Samples.store_of (Samples.team_purchase "completed"))
             (Samples.team_purchase "completed")); reflexivity.
  - intros first.
    apply (proj2 (verify_is_idempotent Samples.mpesa "ws_CO_1") "u1" 6
             (Samples.clock_from 0) (Samples.always (Samples.answered "0" "RCT1"))
             (Samples.store_of (Samples.team_purchase "pending"))
             first.1 first.2); [|reflexivity].
    subst first. apply surjective_pairing.
Defined.

(** A failed team purchase verified against a gateway that now reports
    success, a completed one verified again, and a purchase initiated on the
    store that holds it. *)
Lemma status_never_reopens_witness :
  (let st := Samples.store_of (Samples.team_purchase "failed") in
   never_reopened (Database.payment_transactions st)
     (Database.payment_transactions
        (PaymentFlow.verify_and_process_payment Samples.mpesa "ws_CO_1" "u1" 6
           (Samples.clock_from 0) (Samples.always (Samples.answered "0" "RCT1"))
           st).1))
  ∧ (let st := Samples.store_of (Samples.team_purchase "completed") in
     PaymentFlow.verify_and_process_payment Samples.mpesa "ws_CO_1" "u1" 6
       (Samples.clock_from 0) (Samples.always (Samples.answered "1032" "")) st
     = (st, PaymentFlow.AlreadyProcessed))
  ∧ (let st := Samples.store_of (Samples.team_purchase "completed") in
     ∃ new,
       Database.payment_transactions
         (@PaymentFlow.initiate_organization_purchase_with Samples.runtime
            Samples.test_pricing Samples.mpesa "u1" "org_456" "team" 5
            (lit "0712345678") 0 Samples.push_accepted st).1
       = Database.payment_transactions st ++ new
       ∧ Forall (λ tx, Database.payment_status tx = "pending") new).
Proof.
  pose proof (@status_never_reopens Samples.runtime) as (Hverify & Hdone & Hinit).
  split; [|split].
  - intros st. eapply Hverify. apply surjective_pairing.
  - intros st. apply (Hdone _ _ _ _ _ _ _ (Samples.team_purchase "completed"));
      reflexivity.
  - intros st. eapply Hinit. apply surjective_pairing.
Defined.

(** A push request and a status query that get no reply, a poll that gets
    none, and a poll answered with a cancellation. *)
Lemma transport_problems_are_retried_witness :
  (∃ response,
     @Mpesa.initiate_stk_push Samples.runtime Samples.mpesa (lit "0712345678")
       Mpesa.NoReply = Ret response
     ∧ response !! "ResponseCode" = Some (VStr "1")
     ∧ is_Some (response !! "errorMessage"))
  ∧ (∃ e, Mpesa.query_stk_push Samples.mpesa "ws_CO_1" Mpesa.NoReply = Raise e)
  ∧ (let st := Samples.store_of (Samples.team_purchase "pending") in
     let gateway := Samples.script [Mpesa.NoReply; Samples.answered "0" "RCT1"] in
     PaymentFlow.poll Samples.mpesa (Samples.team_purchase "pending") "ws_CO_1"
       "u1" (Samples.clock_from 0) gateway 2 0 st
     = PaymentFlow.poll Samples.mpesa (Samples.team_purchase "pending") "ws_CO_1"
         "u1" (Samples.clock_from 0) gateway 1 1 st)
  ∧ (let st := Samples.store_of (Samples.team_purchase "pending") in
     PaymentFlow.poll Samples.mpesa (Samples.team_purchase "pending") "ws_CO_1"
       "u1" (Samples.clock_from 0) (Samples.always (Samples.answered "1032" ""))
       6 0 st
     = (Database.update_payment_status "ws_CO_1" "failed" VNone st,
        PaymentFlow.PaymentFailed)).
Proof.
  pose proof (@transport_problems_are_retried Samples.runtime)
    as (Hpush & Hquery & Hpoll & Hdeclined).
  split; [|split; [|split]].
  - destruct (Hpush Samples.mpesa (lit "0712345678") Mpesa.NoReply)
      as (response & Hret & Hproblem).
    exists response. split; [exact Hret|]. apply Hproblem. reflexivity.
  - apply Hquery. reflexivity.
  - intros st gateway. apply Hpoll. reflexivity.
  - intros st. apply Hdeclined. reflexivity.
Defined.

(** A payment recorded at instant 0 for document "doc_1", asked for at minute
    29 and at minute 31; and the verified session asked at minute 31. *)
Lemma download_needs_fresh_or_verified_payment_witness :
  ((PaymentVerification.handle_download_request Samples.mpesa (0 + minutes 29)
      (Samples.always (Samples.answered "0" "RCT1")) Samples.paying_session).2
   = true
   ∧ (PaymentVerification.handle_download_request Samples.mpesa (0 + minutes 31)
        (Samples.always (Samples.answered "0" "RCT1")) Samples.paying_session).2
     = false)
  ∧ PaymentVerification.handle_download_request Samples.mpesa (minutes 31)
      (Samples.always Mpesa.NoReply) Samples.verified_session
    = (Samples.verified_session, true)
  ∧ PaymentVerification.no_document
      (PaymentVerification.current_document_id Samples.verified_session) = false.
Proof.
  pose proof download_needs_fresh_or_verified_payment as (Honly & Hfresh & Hverified).
  split; [|split].
  - destruct (Hfresh Samples.mpesa "ws_CO_1" 100 0
                (Samples.always (Samples.answered "0" "RCT1"))
                (PaymentVerification.reset_payment_state "doc_1" Samples.new_session)
                eq_refl) as [Hat29 Hat31].
    split; [apply Hat29; reflexivity|exact Hat31].
  - eapply Hverified; reflexivity.
  - apply (Honly Samples.mpesa (minutes 31) (Samples.always Mpesa.NoReply)
             Samples.verified_session). reflexivity.
Defined.

(** The team purchase of the integration test, under the test's pricing
    table, then verified at the first poll. *)
Lemma team_purchase_of_five_seats_witness :
  ∃ st1,
    @PaymentFlow.initiate_organization_purchase_with Samples.runtime
      Samples.test_pricing Samples.mpesa "u1" "org_456" "team" 5
      (lit "0712345678") 0 Samples.push_accepted Samples.empty_store
    = (st1, PaymentFlow.Initiated (VStr "ws_CO_1") 32500)
    ∧ ∃ st2 sub,
        PaymentFlow.verify_and_process_payment Samples.mpesa "ws_CO_1" "u1" 1
          (Samples.clock_from 1000000)
          (Samples.always (Samples.answered "0" "RCT1")) st1
        = (st2, PaymentFlow.OrganizationActivated "team")
        ∧ Database.organization_subscriptions st2 = [sub]
        ∧ Database.seats_purchased sub = VInt 5
        ∧ Database.subscription_tier sub = VStr "team"
        ∧ Database.current_period_end sub
          = Database.current_period_start sub + days 30.
Proof.
  destruct (@team_purchase_of_five_seats Samples.runtime Samples.test_pricing
              {| SubscriptionManager.amount := 6500;
                 SubscriptionManager.documents_per_month := None;
                 SubscriptionManager.name := "Team";
                 SubscriptionManager.per_user := true;
                 SubscriptionManager.min_seats := None;
                 SubscriptionManager.trial_days := None |}
              Samples.mpesa "u1" "org_456" (lit "0712345678") 0
              Samples.push_accepted
              {[ "ResponseCode" := VStr "0"; "CheckoutRequestID" := VStr "ws_CO_1" ]}
              "ws_CO_1" Samples.empty_store)
    as (st1 & Hinit & Hverify);
    [reflexivity|reflexivity|reflexivity|reflexivity|reflexivity|discriminate
    |reflexivity|].
  exists st1. split; [exact Hinit|].
  destruct (Hverify "u1" 1 (Samples.clock_from 1000000)
              (Samples.always (Samples.answered "0" "RCT1")))
    as (st2 & sub & Hrun & Hsubs & _ & Hseats & Htier & _ & _ & Hend);
    [lia|reflexivity|].
  exists st2, sub. repeat split; assumption.
Defined.

(** * Further properties *)

(** ** Construction of the gateway client *)

Section ClientConstruction.


Lemma init_configured env net :
  configured env = true →
  Mpesa.__init__ env net
  = (token ← Mpesa.get_mpesa_access_token
               {| Mpesa.business_shortcode := env !! "SAF_SHORTCODE";
                  Mpesa.till_number := env !! "SAF_TILL_NUMBER";
                  Mpesa.consumer_key := env !! "SAF_CONSUMER_KEY";
                  Mpesa.consumer_secret := env !! "SAF_CONSUMER_SECRET";
                  Mpesa.access_token_url := env !! "SAF_ACCESS_TOKEN_API";
                  Mpesa.passkey := env !! "SAF_PASS_KEY";
                  Mpesa.stk_push_url := env !! "SAF_STK_PUSH_API";
                  Mpesa.query_status_url := env !! "SAF_STK_PUSH_QUERY_API";
                  Mpesa.my_callback_url := env !! "CALLBACK_URL";
                  Mpesa.access_token := VNone |} net;
     if negb (truthy token) then Raise (Exception "Failed to get access token")
     else Ret {|
       Mpesa.business_shortcode := env !! "SAF_SHORTCODE";
       Mpesa.till_number := env !! "SAF_TILL_NUMBER";
       Mpesa.consumer_key := env !! "SAF_CONSUMER_KEY";
       Mpesa.consumer_secret := env !! "SAF_CONSUMER_SECRET";
       Mpesa.access_token_url := env !! "SAF_ACCESS_TOKEN_API";
       Mpesa.passkey := env !! "SAF_PASS_KEY";
       Mpesa.stk_push_url := env !! "SAF_STK_PUSH_API";
       Mpesa.query_status_url := env !! "SAF_STK_PUSH_QUERY_API";
       Mpesa.my_callback_url := env !! "CALLBACK_URL";
       Mpesa.access_token := token |}).
Proof.
  intros Hconf. unfold configured in Hconf. simpl in Hconf.
  repeat (apply andb_prop in Hconf as [?%negb_true_iff Hconf]).
  unfold Mpesa.__init__. simpl.
  repeat match goal with H : Mpesa.unset _ = false |- _ => rewrite H; clear H end.
  reflexivity.
Qed.

Lemma init_unconfigured env net :
  configured env = false →
  Mpesa.__init__ env net
  = Raise (ValueError "Missing required environment variables.").
Proof.
  intros Hconf. unfold configured in Hconf.
  apply not_true_iff_false in Hconf.
  rewrite forallb_forall in Hconf.
  destruct (decide (Forall (λ name, Mpesa.unset (env !! name) = false)
                      required_names)) as [Hall|Hex].
  - exfalso. apply Hconf. intros name Hname. apply negb_true_iff.
    rewrite Forall_forall in Hall. by apply Hall, list_elem_of_In.
  - apply not_Forall_Exists in Hex; [|apply _].
    apply Exists_exists in Hex as (name & Hname & Hunset).
    apply not_false_iff_true in Hunset.
    by apply (init_fails_fast env net name).
Qed.

(** X1. Construction raises the "missing environment variables" error exactly
    when one of the eight checked variables is missing or empty, whatever the
    token endpoint would have answered. *)
Theorem init_rejects_exactly_unconfigured (env : gmap string string)
    (net : Mpesa.http_reply) :
  Mpesa.__init__ env net
    = Raise (ValueError "Missing required environment variables.")
  ↔ configured env = false.
Proof.
  split; [|apply init_unconfigured].
  intros Hinit. destruct (configured env) eqn:Hconf; [|done].
  rewrite init_configured in Hinit by done.
  unfold Mpesa.get_mpesa_access_token, Mpesa.split_url, Mpesa.request, Mpesa.json
    in Hinit.
  unfold mbind, outcome_bind, bind in Hinit.
  repeat (case_match; simplify_eq/=); done.
Qed.

(** X2. A handler that has been constructed holds a non-empty value for each
    of the eight checked variables and a token of at least 10 characters,
    which the token endpoint returned with status 200. *)
Theorem init_establishes_configuration (env : gmap string string)
    (net : Mpesa.http_reply) (handler : Mpesa.MpesaHandler) :
  Mpesa.__init__ env net = Ret handler →
  configured env = true
  ∧ ∃ token body,
      net = Mpesa.Reply 200 (Some body)
      ∧ body !! "access_token" = Some (VStr token)
      ∧ (10 ≤ String.length token)%nat
      ∧ Mpesa.access_token handler = VStr token.
Proof.
  intros Hinit. destruct (configured env) eqn:Hconf.
  - split; [done|]. rewrite init_configured in Hinit by done.
    unfold Mpesa.get_mpesa_access_token, Mpesa.split_url, Mpesa.request, Mpesa.json
      in Hinit.
    unfold mbind, outcome_bind, bind in Hinit.
    repeat (case_match; simplify_eq/=).
    match goal with
    | H : negb (_ =? 200) = false |- _ =>
        apply negb_false_iff, Z.eqb_eq in H; subst
    end.
    match goal with
    | H : _ || (_ <? 10)%nat = false |- _ =>
        apply orb_false_elim in H as [_ H%Nat.ltb_ge]
    end.
    eexists _, _. split; [reflexivity|]. split; [eassumption|]. by split.
  - apply (init_unconfigured env net) in Hconf. congruence.
Qed.


End ClientConstruction.

(** ** Phone numbers, push requests and references *)

Section ClientRequests.
Context `{Runtime}.

Lemma filter_filter_isdigit (s : text) :
  List.filter isdigit (List.filter isdigit s) = List.filter isdigit s.
Proof.
  induction s as [|c s IH]; simpl; [done|].
  destruct (isdigit c) eqn:Hc; simpl; [|done]. by rewrite Hc, IH.
Qed.

Lemma filter_isdigit_id (s : text) : all_digits s → List.filter isdigit s = s.
Proof.
  induction 1 as [|c s Hc _ IH]; simpl; [done|]. by rewrite Hc, IH.
Qed.

(** The branches of [_sanitize_phone_number], on the digits it keeps. *)
Lemma sanitize_by_digits (raw : text) :
  Mpesa._sanitize_phone_number raw
  = if accepted_digits (List.filter isdigit raw)
    then Ret (canonical_digits (List.filter isdigit raw))
    else Raise (ValueError "Invalid phone number format.").
Proof.
  unfold Mpesa._sanitize_phone_number, accepted_digits, canonical_digits.
  set (d := List.filter isdigit raw). clearbody d.
  change (lit "0") with [48%N]. change (lit "7") with [55%N].
  change (lit "254") with [50%N; 53%N; 52%N].
  destruct d as [|c0 d]; [reflexivity|].
  destruct (48 =? c0)%N eqn:H0.
  { apply N.eqb_eq in H0. subst c0. cbn. rewrite drop_0.
    by destruct (length d =? 9)%nat. }
  destruct (55 =? c0)%N eqn:H7.
  { apply N.eqb_eq in H7. subst c0. cbn.
    destruct (length d =? 8)%nat eqn:E; cbn; [by rewrite E|done]. }
  destruct (startswith [50%N; 53%N; 52%N] (c0 :: d)) eqn:H254;
    cbn [startswith] in *; rewrite H0, H7; cbn [andb orb negb length].
  - rewrite H254. cbn [andb orb negb].
    destruct (S (length d) =? 12)%nat eqn:H12; cbn [negb]; [|reflexivity].
    apply Nat.eqb_eq in H12.
    replace (S (length d) =? 9)%nat with false by (symmetry; apply Nat.eqb_neq; lia).
    reflexivity.
  - destruct (S (length d) =? 9)%nat eqn:H9.
    + cbn. apply Nat.eqb_eq in H9.
      replace (length d =? 8)%nat with true by (symmetry; apply Nat.eqb_eq; lia).
      reflexivity.
    + cbn [andb orb negb]. rewrite H254. reflexivity.
Qed.

(** X4. The digits decide: characters that are not digits (spaces, dashes, a
    leading "+") are ignored, a number is accepted exactly when its digits
    are 0 and nine more, nine digits not starting with 0 or 254, or 254 and
    nine more, and a number that was returned is returned unchanged when it
    is sanitized again. *)
Theorem sanitize_phone_number_by_digits (raw : text) :
  Mpesa._sanitize_phone_number raw
    = Mpesa._sanitize_phone_number (List.filter isdigit raw)
  ∧ (accepted_digits (List.filter isdigit raw) = true
     ↔ ∃ r, Mpesa._sanitize_phone_number raw = Ret r)
  ∧ ∀ r, Mpesa._sanitize_phone_number raw = Ret r →
         Mpesa._sanitize_phone_number r = Ret r.
Proof.
  split; [|split].
  - by rewrite !sanitize_by_digits, filter_filter_isdigit.
  - rewrite sanitize_by_digits.
    destruct (accepted_digits _); split; try done; [by eexists|by intros [r ?]].
  - intros r Hr.
    destruct (sanitized_is_canonical raw r Hr) as (Hprefix & Hlen & Hdigits).
    rewrite sanitize_by_digits, filter_isdigit_id by done.
    assert (startswith (lit "0") r = false) as Hzero.
    { change (lit "254") with [50%N; 53%N; 52%N] in Hprefix.
      change (lit "0") with [48%N].
      destruct r as [|c r]; [done|]. cbn [startswith] in *.
      apply andb_prop in Hprefix as [Hc%N.eqb_eq _]. by subst c. }
    unfold accepted_digits, canonical_digits.
    by rewrite Hzero, Hprefix, Hlen.
Qed.

(** X5. A phone number that is not accepted gets the validation error
    response from [initiate_stk_push] whatever the gateway would answer. *)
Theorem initiate_stk_push_invalid_phone (mpesa : Mpesa.MpesaHandler)
    (phone_number : text) (net : Mpesa.http_reply) :
  accepted_digits (List.filter isdigit phone_number) = false →
  Mpesa.initiate_stk_push mpesa phone_number net = Ret Mpesa.stk_validation_error.
Proof.
  intros Hrejected.
  unfold Mpesa.initiate_stk_push, Mpesa.initiate_stk_push_try.
  by rewrite sanitize_by_digits, Hrejected.
Qed.


(** X7. [validate_phone_number] answers [False] for every phone number, valid
    or not, when a checked variable is missing (the constructor's error is
    caught as if it were the number's); with a handler that can be
    constructed it answers whether the number is accepted. *)
Theorem validate_phone_number_needs_configuration (env : gmap string string)
    (net : Mpesa.http_reply) (phone : text) :
  (configured env = false →
   Mpesa.validate_phone_number env net phone = Ret false)
  ∧ (∀ handler, Mpesa.__init__ env net = Ret handler →
       Mpesa.validate_phone_number env net phone
       = Ret (accepted_digits (List.filter isdigit phone))).
Proof.
  unfold Mpesa.validate_phone_number. split.
  - intros Hconf. by rewrite init_unconfigured.
  - intros handler ->. simpl. unfold mbind, outcome_bind, bind.
    rewrite sanitize_by_digits. by destruct (accepted_digits _).
Qed.

End ClientRequests.

Section AccountReference.

Lemma chars_length (s : string) :
  String.length s = length (list_ascii_of_string s).
Proof. induction s as [|c s IH]; simpl; [done|]. by rewrite IH. Qed.

Lemma chars_append (s1 s2 : string) :
  list_ascii_of_string (s1 +:+ s2)
  = list_ascii_of_string s1 ++ list_ascii_of_string s2.
Proof. induction s1 as [|c s1 IH]; simpl; [done|]. by rewrite IH. Qed.

Lemma chars_substring (n m : nat) (s : string) :
  list_ascii_of_string (String.substring n m s)
  = take m (drop n (list_ascii_of_string s)).
Proof.
  revert n m. induction s as [|c s IH]; intros [|n] [|m]; simpl; try done.
  by rewrite IH, drop_0.
Qed.

Lemma chars_slice_to (n : Z) (s : string) :
  ∃ k, list_ascii_of_string (Mpesa.slice_to n s) = take k (list_ascii_of_string s)
       ∧ (0 ≤ n → k = Z.to_nat n).
Proof.
  unfold Mpesa.slice_to. destruct (0 <=? n) eqn:Hn.
  - eexists. rewrite chars_substring, drop_0. by split.
  - apply Z.leb_gt in Hn. eexists. rewrite chars_substring, drop_0.
    split; [done|lia].
Qed.

Lemma chars_choices (draw : nat → nat) (k : Z) :
  length (list_ascii_of_string (Mpesa.choices draw k)) = Z.to_nat k
  ∧ reference_text (Mpesa.choices draw k) = true.
Proof.
  unfold reference_text, Mpesa.choices.
  rewrite list_ascii_of_string_of_list_ascii. split.
  - by rewrite length_map, length_seq.
  - apply forallb_forall. intros c [i [<- _]]%in_map_iff.
    assert (draw i mod 36 < 36)%nat as Hlt by (apply Nat.mod_upper_bound; lia).
    revert Hlt. generalize (draw i mod 36)%nat. intros n Hn.
    do 36 (destruct n as [|n]; [reflexivity|]). lia.
Qed.

Lemma uint_digits (d : Decimal.uint) :
  reference_text (DecimalString.NilEmpty.string_of_uint d) = true.
Proof. unfold reference_text. induction d; simpl; done. Qed.

Lemma str_of_Z_digits (z : Z) : 0 ≤ z → reference_text (str_of_Z z) = true.
Proof.
  intros Hz. unfold str_of_Z. destruct z as [|p|p]; [done| |lia].
  simpl. unfold DecimalString.NilZero.string_of_uint.
  destruct (Pos.to_uint p) eqn:Hp; rewrite <- ?Hp; try apply uint_digits.
  done.
Qed.

Lemma forallb_take {A} (f : A → bool) (n : nat) (l : list A) :
  forallb f l = true → forallb f (take n l) = true.
Proof.
  revert n. induction l as [|x l IH]; intros [|n]; simpl; try done.
  intros [-> Hl]%andb_prop. simpl. by apply IH.
Qed.

Lemma forallb_drop {A} (f : A → bool) (n : nat) (l : list A) :
  forallb f l = true → forallb f (drop n l) = true.
Proof.
  revert n. induction l as [|x l IH]; intros [|n]; simpl; try done.
  intros [_ Hl]%andb_prop. by apply IH.
Qed.

(** X8. A generated account reference has exactly the requested number of
    characters, for every requested length from 0 up, whatever the time and
    the random draws; and all its characters are uppercase letters or digits. *)
Theorem account_reference_has_requested_length (now : Z) (draw : nat → nat)
    (length : Z) :
  (0 ≤ length →
   String.length (Mpesa.generate_account_reference now draw length)
   = Z.to_nat length)
  ∧ (0 ≤ now →
     reference_text (Mpesa.generate_account_reference now draw length) = true).
Proof.
  unfold Mpesa.generate_account_reference.
  set (stamp := Mpesa.last_four (str_of_Z now)).
  set (drawn := Mpesa.choices draw (length - Z.of_nat (String.length stamp))).
  destruct (chars_slice_to length (stamp +:+ drawn)) as (k & Hslice & Hk).
  destruct (chars_choices draw (length - Z.of_nat (String.length stamp)))
    as [Hdrawn_length Hdrawn]. fold drawn in Hdrawn_length, Hdrawn.
  split.
  - intros Hlength. rewrite chars_length, Hslice, Hk by done.
    rewrite length_take, chars_append, length_app, Hdrawn_length, <- chars_length.
    lia.
  - intros Hnow. unfold reference_text in *. rewrite Hslice.
    apply forallb_take. rewrite chars_append, forallb_app, Hdrawn, andb_true_r.
    unfold stamp, Mpesa.last_four. rewrite chars_substring.
    apply forallb_take, forallb_drop. by apply str_of_Z_digits.
Qed.

End AccountReference.

(** ** Initiation *)

Section Initiation.
Import Database PaymentFlow.
Context `{Runtime}.

(** X9. Initiation writes to the store only when the push request is
    accepted: every failure (unknown tier, rejected phone number, transport
    problem, refusal by the gateway) leaves the store as it was, and an
    acceptance appends exactly one pending organization transaction, dated
    [now], for the user, the amount and the checkout id it reports. *)
Theorem initiate_writes_only_on_acceptance
    (PRICING : gmap string SubscriptionManager.tier_config)
    (mpesa : Mpesa.MpesaHandler) (user organization tier : string) (seats : Z)
    (phone_number : text) (now : Z) (net : Mpesa.http_reply) (st st' : store)
    (r : initiation) :
  initiate_organization_purchase_with PRICING mpesa user organization tier seats
    phone_number now net st = (st', r) →
  match r with
  | NotInitiated _ => st' = st
  | Initiated checkout_id charged =>
      ∃ tx, st' = with_transactions st (payment_transactions st ++ [tx])
            ∧ checkout_request_id tx = checkout_id
            ∧ Database.amount tx = charged
            ∧ Database.user_id tx = user
            ∧ payment_status tx = "pending"
            ∧ transaction_type tx = "organization_subscription"
            ∧ transaction_date tx = now
  end.
Proof.
  unfold initiate_organization_purchase_with.
  destruct (PRICING !! tier) as [config|]; [|by intros [= <- <-]].
  destruct (if String.eqb tier "individual" then _ else _) as [seats' amount'].
  destruct (Mpesa.initiate_stk_push mpesa phone_number net) as [response|e];
    [|by intros [= <- <-]].
  case_bool_decide; intros [= <- <-]; [|done].
  eexists. split; [reflexivity|]. by repeat split.
Qed.

(** X10. For an accepted push request the charge is the listed price times
    the seats asked for, whatever their number (no minimum is checked), except
    for the individual tier, which is always one seat at the listed price;
    the stored transaction carries that charge and that seat count. *)
Theorem initiate_charges_price_times_seats
    (PRICING : gmap string SubscriptionManager.tier_config)
    (config : SubscriptionManager.tier_config)
    (mpesa : Mpesa.MpesaHandler) (user organization tier : string) (seats : Z)
    (phone_number : text) (now : Z) (net : Mpesa.http_reply)
    (response : dict) (checkout_id : string) (st : store) :
  PRICING !! tier = Some config →
  Mpesa.initiate_stk_push mpesa phone_number net = Ret response →
  response !! "ResponseCode" = Some (VStr "0") →
  response !! "CheckoutRequestID" = Some (VStr checkout_id) →
  List.filter (has_checkout_id checkout_id) (payment_transactions st) = [] →
  let price := SubscriptionManager.amount config in
  let billed_seats := if String.eqb tier "individual" then 1 else seats in
  let run := initiate_organization_purchase_with PRICING mpesa user organization
               tier seats phone_number now net st in
  run.2 = Initiated (VStr checkout_id) (price * billed_seats)
  ∧ ∃ tx, get_payment_transaction_by_checkout_id run.1 checkout_id = Some tx
          ∧ Database.amount tx = price * billed_seats
          ∧ metadata tx !! "seats" = Some (VInt billed_seats)
          ∧ metadata tx !! "tier" = Some (VStr tier)
          ∧ metadata tx !! "organization_id" = Some (VStr organization).
Proof.
  intros Hconfig Hpush Hcode Hid Hfresh price billed_seats run. subst run.
  rewrite (initiate_accepted PRICING config _ _ _ _ _ _ _ _ response checkout_id)
    by done.
  fold price. subst billed_seats.
  destruct (String.eqb tier "individual"); simpl.
  - rewrite Z.mul_1_r. split; [done|].
    edestruct (get_after_create user price "organization_subscription" checkout_id)
      as (tx & -> & _ & _ & Hamount & Hmeta); [exact Hfresh|].
    exists tx. rewrite Hmeta. by repeat split.
  - split; [done|].
    edestruct (get_after_create user (price * seats) "organization_subscription"
                 checkout_id)
      as (tx & -> & _ & _ & Hamount & Hmeta); [exact Hfresh|].
    exists tx. rewrite Hmeta. by repeat split.
Qed.

End Initiation.

(** ** Verification, further *)

Section VerificationOutcomes.
Import Database PaymentFlow.

Variables (mpesa : Mpesa.MpesaHandler) (cid : string).

Lemma poll_skip_unresolved (tx : transaction) user clock gateway k n i st :
  (∀ j, (j < k)%nat → unresolved mpesa cid (gateway (i + j)%nat) = true) →
  poll mpesa tx cid user clock gateway (k + n) i st
  = poll mpesa tx cid user clock gateway n (i + k) st.
Proof.
  revert i. induction k as [|k IH]; intros i Hwait.
  - by rewrite Nat.add_0_r.
  - change (S k + n)%nat with (S (k + n)). rewrite poll_unresolved.
    + rewrite IH; [f_equal; lia|].
      intros j Hj. replace (S i + j)%nat with (i + S j)%nat by lia.
      apply Hwait. lia.
    + replace i with (i + 0)%nat at 1 by lia. apply Hwait. lia.
Qed.


(** X11. A second transaction inserted under a checkout id that is already in
    the store hides both: the lookup finds none, and verification of that id
    answers "Transaction not found" without writing anything. *)
Theorem duplicate_checkout_id_hides_transaction
    (user : string) (charged : Z) (type hash : string) (credits : Z)
    (org seats tier : value) (now : Z) (st : store) (tx : transaction) :
  get_payment_transaction_by_checkout_id st cid = Some tx →
  let st' := create_payment_transaction user charged type (VStr cid) hash credits
               org seats tier now st in
  get_payment_transaction_by_checkout_id st' cid = None
  ∧ ∀ user' max_attempts clock gateway,
      verify_and_process_payment mpesa cid user' max_attempts clock gateway st'
      = (st', TransactionNotFound).
Proof.
  intros Htx st'.
  assert (get_payment_transaction_by_checkout_id st' cid = None) as Hnone.
  { unfold get_payment_transaction_by_checkout_id in *. subst st'.
    unfold create_payment_transaction. simpl. rewrite List.filter_app. simpl.
    unfold has_checkout_id at 2. simpl. rewrite bool_decide_eq_true_2 by done.
    destruct (List.filter _ _) as [|tx0 [|]]; simplify_eq; done. }
  split; [done|]. intros user' max_attempts clock gateway.
  unfold verify_and_process_payment. by rewrite Hnone.
Qed.

(** X12. When the gateway leaves some polls unsettled and then answers with a
    terminal failure code, within the allowed attempts, verification of a
    transaction that is not completed returns the failure, marks the
    transaction [failed] and changes nothing else: the receipt number it had
    stays. *)
Theorem declined_after_waiting (user : string) (max_attempts : Z)
    (clock : nat → Z) (gateway : nat → Mpesa.http_reply) (st : store)
    (tx : transaction) (k : nat) :
  get_payment_transaction_by_checkout_id st cid = Some tx →
  String.eqb (payment_status tx) "completed" = false →
  (k < Z.to_nat max_attempts)%nat →
  (∀ j, (j < k)%nat → unresolved mpesa cid (gateway j) = true) →
  declined mpesa cid (gateway k) = true →
  verify_and_process_payment mpesa cid user max_attempts clock gateway st
  = (update_payment_status cid "failed" VNone st, PaymentFailed)
  ∧ ∃ tx', get_payment_transaction_by_checkout_id
             (update_payment_status cid "failed" VNone st) cid = Some tx'
           ∧ payment_status tx' = "failed"
           ∧ mpesa_receipt_number tx' = mpesa_receipt_number tx.
Proof.
  intros Htx Hopen Hk Hwait Hdeclined.
  unfold verify_and_process_payment. rewrite Htx, Hopen.
  replace (Z.to_nat max_attempts) with (k + S (Z.to_nat max_attempts - S k))%nat
    by lia.
  rewrite poll_skip_unresolved by (intros j Hj; by apply Hwait).
  rewrite poll_declined by done. split; [done|].
  rewrite (get_after_update cid "failed" VNone st tx) by done.
  by eexists.
Qed.


End VerificationOutcomes.

(** ** What verification leaves alone *)

Section VerificationFrame.
Import Database PaymentFlow.

Variables (mpesa : Mpesa.MpesaHandler) (cid : string).

Lemma framed_refl st : framed cid st st.
Proof.
  split; [done|]. split; [done|].
  apply Forall_Forall2_diag, Forall_forall. done.
Qed.

Lemma framed_trans st1 st2 st3 :
  framed cid st1 st2 → framed cid st2 st3 → framed cid st1 st3.
Proof.
  intros (Hu12 & Ho12 & Ht12) (Hu23 & Ho23 & Ht23).
  split; [congruence|]. split; [by etrans|].
  revert Ht23. generalize (payment_transactions st3).
  induction Ht12 as [|a b l1 l2 Hab _ IH]; intros l3 Ht23;
    inversion Ht23 as [|? c ? l3' Hbc Hrest]; subst; constructor; [|by apply IH].
  intros Ha. rewrite Hbc; [by apply Hab|]. by rewrite (Hab Ha).
Qed.

Lemma framed_update status receipt st :
  framed cid st (update_payment_status cid status receipt st).
Proof.
  split; [done|]. split; [done|]. unfold update_payment_status. simpl.
  induction (payment_transactions st) as [|tx txs IH]; simpl; constructor; [|done].
  intros Hother. by rewrite Hother.
Qed.

Lemma framed_create org tier seats price now st :
  framed cid st (create_organization_subscription org tier seats price now st).
Proof.
  split; [done|]. split; [by apply prefix_app_r|].
  apply Forall_Forall2_diag, Forall_forall. done.
Qed.

Lemma attempt_outcome_framed now st st' o :
  attempt_outcome cid now st st' o → framed cid st st'.
Proof.
  destruct 1; eauto using framed_refl, framed_update, framed_create, framed_trans.
Qed.

Lemma poll_framed (tx : transaction) user clock gateway n i st :
  framed cid st (poll mpesa tx cid user clock gateway n i st).1.
Proof.
  revert i st. induction n as [|n IH]; intros i st; simpl; [apply framed_refl|].
  pose proof (attempt_outcomes mpesa tx cid user (clock i) (gateway i) st) as Hout.
  apply attempt_outcome_framed in Hout.
  destruct (attempt mpesa tx cid user (clock i) (gateway i) st)
    as [st1 [[r1|]|e]]; simpl in *; [done|..];
    (eapply framed_trans; [exact Hout|apply IH]).
Qed.

(** X14. Whatever the gateway answers and however it ends, a verification
    never touches the individual subscriptions (credit balances, end dates),
    never changes or removes an organization subscription that exists, and
    never changes a transaction stored under another checkout id. *)
Theorem verification_is_framed (user : string) (max_attempts : Z)
    (clock : nat → Z) (gateway : nat → Mpesa.http_reply) (st : store) :
  framed cid st
    (verify_and_process_payment mpesa cid user max_attempts clock gateway st).1.
Proof.
  unfold verify_and_process_payment.
  destruct (get_payment_transaction_by_checkout_id st cid) as [tx|];
    [|apply framed_refl].
  destruct (String.eqb (payment_status tx) "completed"); [apply framed_refl|].
  apply poll_framed.
Qed.

End VerificationFrame.

(** ** Pending payments *)

Section PendingPayments.
Import Database PaymentFlow.

#[local] Instance newer_first_total : Total newer_first.
Proof. intros a b. unfold newer_first. lia. Qed.

#[local] Instance newer_first_trans : Transitive newer_first.
Proof. intros a b c. unfold newer_first. lia. Qed.

Lemma history_elem_of st user tx :
  tx ∈ get_user_payment_history st user
  ↔ tx ∈ payment_transactions st ∧ Database.user_id tx = user.
Proof.
  unfold get_user_payment_history. rewrite merge_sort_Permutation.
  rewrite !list_elem_of_In, filter_In. by rewrite String.eqb_eq.
Qed.

Lemma find_in_sorted (p : transaction → bool) (l : list transaction) :
  StronglySorted newer_first l →
  match List.find p l with
  | Some tx => tx ∈ l ∧ p tx = true
               ∧ ∀ tx', tx' ∈ l → p tx' = true →
                        transaction_date tx' ≤ transaction_date tx
  | None => ∀ tx', tx' ∈ l → p tx' = false
  end.
Proof.
  induction 1 as [|a l Hsorted IH Hall]; simpl.
  - intros tx' Hin. by apply elem_of_nil in Hin.
  - destruct (p a) eqn:Hpa.
    + split; [by left|]. split; [done|].
      intros tx' [->|Hin]%elem_of_cons _; [done|].
      rewrite Forall_forall in Hall. change (newer_first a tx').
      by apply Hall.
    + destruct (List.find p l) as [tx|].
      * destruct IH as (Hin & Hp & Hnewest). split; [by right|]. split; [done|].
        intros tx' [->|Hin']%elem_of_cons Hp'; [congruence|by apply Hnewest].
      * intros tx' [->|Hin']%elem_of_cons; [done|by apply IH].
Qed.

Lemma pending_payment_spec user now st :
  match get_pending_payment user now st with
  | Some tx =>
      tx ∈ payment_transactions st ∧ Database.user_id tx = user
      ∧ fresh_pending now tx = true
      ∧ ∀ tx', tx' ∈ payment_transactions st → Database.user_id tx' = user →
               fresh_pending now tx' = true →
               transaction_date tx' ≤ transaction_date tx
  | None =>
      ∀ tx', tx' ∈ payment_transactions st → Database.user_id tx' = user →
             fresh_pending now tx' = false
  end.
Proof.
  unfold get_pending_payment.
  pose proof (find_in_sorted (fresh_pending now) (get_user_payment_history st user)
                (StronglySorted_merge_sort _ _)) as Hfind.
  change (λ tx, String.eqb (payment_status tx) "pending"
                && (now - transaction_date tx <? minutes 30))
    with (fresh_pending now).
  destruct (List.find _ _) as [tx|].
  - destruct Hfind as (Hin & Hp & Hnewest).
    apply history_elem_of in Hin as [Hin Huser].
    repeat split; try done.
    intros tx' Hin' Huser' Hp'. apply Hnewest; [|done]. by apply history_elem_of.
  - intros tx' Hin' Huser'. apply Hfind. by apply history_elem_of.
Qed.

(** X15. [get_pending_payment] returns a transaction of the user that is
    pending and less than 30 minutes old, and the most recent of those; it
    returns nothing exactly when the user has no such transaction. *)
Theorem pending_payment_is_the_most_recent (user : string) (now : Z) (st : store) :
  match get_pending_payment user now st with
  | Some tx =>
      tx ∈ payment_transactions st
      ∧ Database.user_id tx = user
      ∧ payment_status tx = "pending"
      ∧ now - transaction_date tx < minutes 30
      ∧ ∀ tx', tx' ∈ payment_transactions st → Database.user_id tx' = user →
               payment_status tx' = "pending" →
               now - transaction_date tx' < minutes 30 →
               transaction_date tx' ≤ transaction_date tx
  | None =>
      ∀ tx', tx' ∈ payment_transactions st → Database.user_id tx' = user →
             payment_status tx' = "pending" →
             minutes 30 ≤ now - transaction_date tx'
  end.
Proof.
  pose proof (pending_payment_spec user now st) as Hspec.
  destruct (get_pending_payment user now st) as [tx|].
  - destruct Hspec as (Hin & Huser & Hfresh & Hnewest).
    unfold fresh_pending in Hfresh.
    apply andb_prop in Hfresh as [Hpending%String.eqb_eq Hage%Z.ltb_lt].
    repeat split; try done.
    intros tx' Hin' Huser' Hpending' Hage'. apply Hnewest; try done.
    unfold fresh_pending. rewrite Hpending'. simpl. by apply Z.ltb_lt.
  - intros tx' Hin' Huser' Hpending'.
    specialize (Hspec tx' Hin' Huser'). unfold fresh_pending in Hspec.
    rewrite Hpending' in Hspec. simpl in Hspec. by apply Z.ltb_ge.
Qed.

(** X16. Once a verification has returned success for a checkout id, no
    transaction under that id is offered as a pending payment any more, to
    any user at any time. *)
Theorem verified_transaction_is_not_pending (mpesa : Mpesa.MpesaHandler)
    (cid user : string) (max_attempts : Z) (clock : nat → Z)
    (gateway : nat → Mpesa.http_reply) (st st' : store) (r : verification) :
  verify_and_process_payment mpesa cid user max_attempts clock gateway st
    = (st', r) →
  success r = true →
  ∀ user' now tx, get_pending_payment user' now st' = Some tx →
                  checkout_request_id tx ≠ VStr cid.
Proof.
  intros Hverify Hsuccess user' now tx Hpending Hcid.
  assert (∃ done, get_payment_transaction_by_checkout_id st' cid = Some done
                  ∧ payment_status done = "completed") as (done & Hdone & Hstatus).
  { unfold verify_and_process_payment in Hverify.
    destruct (get_payment_transaction_by_checkout_id st cid) as [tx0|] eqn:Htx0;
      [|by simplify_eq].
    destruct (String.eqb (payment_status tx0) "completed") eqn:Hcompleted.
    - simplify_eq. apply String.eqb_eq in Hcompleted. eauto.
    - apply poll_sound in Hverify as (_ & _ & Hget).
      destruct (Hget tx0 Htx0) as (tx1 & Htx1 & Hc). eauto. }
  pose proof (pending_payment_spec user' now st') as Hspec.
  rewrite Hpending in Hspec. destruct Hspec as (Hin & _ & Hfresh & _).
  unfold fresh_pending in Hfresh.
  apply andb_prop in Hfresh as [Hp%String.eqb_eq _].
  unfold get_payment_transaction_by_checkout_id in Hdone.
  assert (In tx (List.filter (has_checkout_id cid) (payment_transactions st')))
    as Hfiltered.
  { apply filter_In. split; [by apply list_elem_of_In|].
    unfold has_checkout_id. by apply bool_decide_eq_true. }
  destruct (List.filter _ _) as [|tx0 [|]]; simplify_eq.
  destruct Hfiltered as [->|[]]. congruence.
Qed.

End PendingPayments.

Section InitiatedPayments.
Import Database PaymentFlow.
Context `{Runtime}.

(** X17. After an accepted initiation at [now], the user is offered a pending
    payment at every instant less than 30 minutes later, and the one offered
    is at least as recent as the one just initiated. *)
Theorem initiated_transaction_is_pending
    (PRICING : gmap string SubscriptionManager.tier_config)
    (mpesa : Mpesa.MpesaHandler) (user organization tier : string) (seats : Z)
    (phone_number : text) (now : Z) (net : Mpesa.http_reply) (st st' : store)
    (checkout_id : value) (charged : Z) (later : Z) :
  initiate_organization_purchase_with PRICING mpesa user organization tier seats
    phone_number now net st = (st', Initiated checkout_id charged) →
  later - now < minutes 30 →
  ∃ tx, get_pending_payment user later st' = Some tx
        ∧ payment_status tx = "pending"
        ∧ now ≤ transaction_date tx.
Proof.
  intros Hinit Hlater.
  assert (∃ new, new ∈ payment_transactions st' ∧ Database.user_id new = user
                 ∧ payment_status new = "pending" ∧ transaction_date new = now)
    as (new & Hin & Huser & Hpending & Hdate).
  { unfold initiate_organization_purchase_with in Hinit.
    destruct (PRICING !! tier) as [config|]; [|done].
    destruct (if String.eqb tier "individual" then _ else _) as [seats' amount'].
    destruct (Mpesa.initiate_stk_push mpesa phone_number net) as [response|e];
      [|done].
    case_bool_decide; [|done]. injection Hinit as <- _ _.
    eexists. split; [apply elem_of_app; right; by left|]. done. }
  assert (fresh_pending later new = true) as Hfresh.
  { unfold fresh_pending. rewrite Hpending, Hdate. simpl. by apply Z.ltb_lt. }
  pose proof (pending_payment_spec user later st') as Hspec.
  destruct (get_pending_payment user later st') as [tx|].
  - destruct Hspec as (_ & _ & Htx & Hnewest). exists tx. split; [done|].
    unfold fresh_pending in Htx. apply andb_prop in Htx as [Hp%String.eqb_eq _].
    split; [done|]. rewrite <- Hdate. by apply Hnewest.
  - rewrite (Hspec new Hin Huser) in Hfresh. done.
Qed.

End InitiatedPayments.

(** ** The tables *)

Section Tables.
Import Database.

Lemma filter_subscriber_update user f (subs : list user_subscription) :
  (∀ row, subscriber (f row) = subscriber row) →
  ∀ other,
    List.filter (λ sub, String.eqb (subscriber sub) other)
      (map (λ row, if String.eqb (subscriber row) user then f row else row) subs)
    = map (λ row, if String.eqb (subscriber row) user then f row else row)
        (List.filter (λ sub, String.eqb (subscriber sub) other) subs).
Proof.
  intros Hf other. induction subs as [|row subs IH]; simpl; [done|].
  destruct (String.eqb (subscriber row) user) eqn:Huser; simpl.
  - rewrite Hf. destruct (String.eqb (subscriber row) other); simpl; [|done].
    by rewrite Huser, IH.
  - destruct (String.eqb (subscriber row) other); simpl; [|done].
    by rewrite Huser, IH.
Qed.

(** X18. [update_subscription_credits] replaces the balance of a user who has
    one subscription row by the old balance plus the delta, or by 0 when that
    would be negative: a deduction larger than the balance is not refused. It
    returns the updated row, keeps the end date, and leaves every other
    user's subscription, every transaction and every organization
    subscription alone. Without a subscription row it changes nothing. *)
Theorem credits_update_clamps_at_zero (user : string) (delta : Z) (st : store) :
  match get_user_subscription st user with
  | None => update_subscription_credits user delta st = (st, None)
  | Some sub =>
      ∃ updated,
        (update_subscription_credits user delta st).2 = Some updated
        ∧ get_user_subscription (update_subscription_credits user delta st).1 user
          = Some updated
        ∧ credits_remaining updated = Z.max 0 (credits_remaining sub + delta)
        ∧ 0 ≤ credits_remaining updated
        ∧ subscription_end_date updated = subscription_end_date sub
        ∧ (∀ other, other ≠ user →
             get_user_subscription (update_subscription_credits user delta st).1
               other = get_user_subscription st other)
        ∧ payment_transactions (update_subscription_credits user delta st).1
          = payment_transactions st
        ∧ organization_subscriptions (update_subscription_credits user delta st).1
          = organization_subscriptions st
  end.
Proof.
  unfold update_subscription_credits.
  destruct (get_user_subscription st user) as [sub|] eqn:Hsub; [|done].
  eexists. split; [reflexivity|]. simpl.
  split; [|split; [done|split; [lia|split; [done|split; [|done]]]]].
  - unfold get_user_subscription in *. simpl.
    rewrite filter_subscriber_update by done.
    destruct (List.filter _ _) as [|row [|]] eqn:Hfilter; simplify_eq.
    assert (In sub (List.filter (λ s, String.eqb (subscriber s) user)
                      (user_subscriptions st))) as Hin by (rewrite Hfilter; by left).
    apply filter_In in Hin as [_ Huser]. simpl. by rewrite Huser.
  - intros other Hother. unfold get_user_subscription. simpl.
    rewrite filter_subscriber_update by done.
    set (rows := List.filter _ (user_subscriptions st)).
    assert (Forall (λ row, String.eqb (subscriber row) user = false) rows) as Hrows.
    { apply Forall_forall. intros row Hrow%list_elem_of_In.
      apply filter_In in Hrow as [_ Hrow%String.eqb_eq].
      apply String.eqb_neq. congruence. }
    assert (map (λ row, if String.eqb (subscriber row) user
                        then {| subscriber := subscriber row;
                                credits_remaining :=
                                  Z.max 0 (credits_remaining sub + delta);
                                subscription_end_date := subscription_end_date row |}
                        else row) rows = rows) as ->; [|done].
    induction Hrows as [|row rows Hrow _ IH]; simpl; [done|].
    by rewrite Hrow, IH.
Qed.

(** X19. An organization subscription that has just been created is the one
    [get_organization_subscription] reads, active and with a period of 30
    days, when the organization had no active subscription; when it already
    had one, the creation adds a second active row and the lookup then finds
    none. *)
Theorem organization_subscription_after_creation (organization : string)
    (tier seats : value) (price now : Z) (st : store) :
  let st' := create_organization_subscription (VStr organization) tier seats price
               now st in
  match get_organization_subscription st organization with
  | Some _ => get_organization_subscription st' organization = None
  | None =>
      List.filter
        (λ sub, bool_decide (organization_id sub = VStr organization)
                && String.eqb (status sub) "active")
        (organization_subscriptions st) = [] →
      ∃ sub, get_organization_subscription st' organization = Some sub
             ∧ subscription_tier sub = tier
             ∧ seats_purchased sub = seats
             ∧ seats_used sub = 0
             ∧ status sub = "active"
             ∧ current_period_start sub = now
             ∧ current_period_end sub = now + days 30
             ∧ next_billing_date sub = now + days 30
  end.
Proof.
  intros st'. subst st'. unfold get_organization_subscription.
  unfold create_organization_subscription. simpl. rewrite List.filter_app. simpl.
  rewrite bool_decide_eq_true_2 by done. simpl.
  destruct (List.filter _ (organization_subscriptions st)) as [|sub [|]]; try done.
  intros _. eexists. split; [reflexivity|]. by repeat split.
Qed.

(** X20. A receipt number survives later status writes: once a transaction
    has been marked with a receipt, a later [update_payment_status] that
    carries no receipt (as the one that marks it [failed] does) changes the
    status and leaves the receipt. *)
Theorem receipt_survives_later_status (cid status1 status2 : string)
    (receipt : value) (st : store) (tx : transaction) :
  get_payment_transaction_by_checkout_id st cid = Some tx →
  truthy receipt = true →
  ∃ tx',
    get_payment_transaction_by_checkout_id
      (update_payment_status cid status2 VNone
         (update_payment_status cid status1 receipt st)) cid = Some tx'
    ∧ payment_status tx' = status2
    ∧ mpesa_receipt_number tx' = receipt.
Proof.
  intros Htx Hreceipt. eexists. split.
  - by apply get_after_update, get_after_update.
  - simpl. by rewrite Hreceipt.
Qed.

End Tables.

(** ** The session guard, further *)

Section GuardProperties.
Import PaymentVerification.

Lemma guard_poll_true mpesa cid gateway n i :
  poll mpesa cid gateway n i = true
  ↔ ∃ k, (k < n)%nat
         ∧ attempt mpesa cid (gateway (i + k)%nat) = Some true
         ∧ ∀ j, (j < k)%nat → attempt mpesa cid (gateway (i + j)%nat) = None.
Proof.
  revert i. induction n as [|n IH]; intros i; simpl.
  - split; [done|]. intros (k & Hk & _). lia.
  - destruct (attempt mpesa cid (gateway i)) as [b|] eqn:Hfirst.
    + split.
      * intros ->. exists 0%nat. rewrite Nat.add_0_r.
        split; [lia|]. split; [done|]. intros j Hj. lia.
      * intros ([|k] & Hk & Htrue & Hwait).
        -- rewrite Nat.add_0_r in Htrue. congruence.
        -- specialize (Hwait 0%nat). rewrite Nat.add_0_r in Hwait.
           rewrite Hwait in Hfirst by lia. done.
    + rewrite IH. split.
      * intros (k & Hk & Htrue & Hwait). exists (S k). split; [lia|].
        replace (i + S k)%nat with (S i + k)%nat by lia. split; [done|].
        intros [|j] Hj; [by rewrite Nat.add_0_r|].
        replace (i + S j)%nat with (S i + j)%nat by lia. apply Hwait. lia.
      * intros ([|k] & Hk & Htrue & Hwait).
        -- rewrite Nat.add_0_r in Htrue. congruence.
        -- exists k. split; [lia|].
           replace (S i + k)%nat with (i + S k)%nat by lia. split; [done|].
           intros j Hj. replace (S i + j)%nat with (i + S j)%nat by lia.
           apply Hwait. lia.
Qed.

(** X21. [verify_payment] returns [True] exactly when the session holds a
    payment status for the given document and, within the allowed attempts,
    the first poll that settles (success code, or one of the two failure
    codes it knows) is a success. *)
Theorem verify_payment_first_settled_poll (mpesa : Mpesa.MpesaHandler)
    (session : session_state) (cid : string) (document : option string)
    (max_attempts : Z) (gateway : nat → Mpesa.http_reply) :
  verify_payment mpesa session cid document max_attempts gateway = true
  ↔ (∃ status, payment_status session = Some status
               ∧ document_id status = document)
    ∧ ∃ k, (k < Z.to_nat max_attempts)%nat
           ∧ attempt mpesa cid (gateway k) = Some true
           ∧ ∀ j, (j < k)%nat → attempt mpesa cid (gateway j) = None.
Proof.
  unfold verify_payment.
  destruct (payment_status session) as [status|].
  - unfold same_document. case_bool_decide as Hdoc; simpl.
    + rewrite guard_poll_true. simpl. split; [|by intros [_ ?]].
      intros Hk. split; [by exists status|done].
    + split; [done|]. intros [(status' & [= <-] & Hsame) _]. done.
  - split; [done|]. by intros [(status & ? & _) _].
Qed.

(** X22. An authorization sticks: once [handle_download_request] has allowed
    the download, every later request in the resulting session is allowed
    too, at any time and without the gateway having a say, and leaves the
    session as it is. *)
Theorem authorization_sticks (mpesa : Mpesa.MpesaHandler) (now : Z)
    (gateway : nat → Mpesa.http_reply) (session session' : session_state) :
  handle_download_request mpesa now gateway session = (session', true) →
  ∀ mpesa' now' gateway',
    handle_download_request mpesa' now' gateway' session' = (session', true).
Proof.
  intros Hallowed.
  assert (no_document (current_document_id session') = false
          ∧ payment_verified session' = true
          ∧ ∃ status, payment_status session' = Some status
                      ∧ same_document status (current_document_id session') = true)
    as (Hdoc & Hverified & status & Hstatus & Hsame).
  { unfold handle_download_request in Hallowed.
    destruct (no_document (current_document_id session)) eqn:Hdoc; [done|].
    destruct (payment_status session) as [status|] eqn:Hstatus.
    - destruct (payment_verified session
                && same_document status (current_document_id session)) eqn:Hfast.
      + simplify_eq. apply andb_prop in Hfast as [? ?]. eauto 10.
      + destruct (minutes 30 <? now - timestamp status); [done|].
        destruct (verify_payment _ _ _ _ _ _) eqn:Hverify; [|done].
        simplify_eq. simpl. unfold verify_payment in Hverify.
        rewrite Hstatus in Hverify.
        destruct (same_document status (current_document_id session)) eqn:Hsame;
          [|done].
        eauto 10.
    - rewrite andb_false_r in Hallowed. done. }
  intros mpesa' now' gateway'. unfold handle_download_request.
  by rewrite Hdoc, Hverified, Hstatus, Hsame.
Qed.

(** X23. A new document or a new payment withdraws the authorization: right
    after [reset_payment_state] every request is refused, and after
    [update_payment_status] has recorded a payment a request is refused
    unless the gateway confirms that payment. *)
Theorem new_document_or_payment_withdraws_authorization
    (mpesa : Mpesa.MpesaHandler) (now : Z) (gateway : nat → Mpesa.http_reply)
    (session : session_state) :
  (∀ fresh_document_id,
     handle_download_request mpesa now gateway
       (reset_payment_state fresh_document_id session)
     = (reset_payment_state fresh_document_id session, false))
  ∧ (∀ cid amount recorded_at,
       poll mpesa cid gateway 5 0 = false →
       (handle_download_request mpesa now gateway
          (update_payment_status cid amount recorded_at session)).2 = false).
Proof.
  split.
  - intros fresh. unfold handle_download_request, reset_payment_state. simpl.
    by destruct (String.eqb fresh "").
  - intros cid amount recorded_at Hpoll.
    unfold handle_download_request, update_payment_status. simpl.
    destruct (no_document (current_document_id session)); [done|].
    destruct (minutes 30 <? now - recorded_at); [done|].
    unfold verify_payment. simpl.
    destruct (same_document _ _); simpl; [|done].
    simpl in Hpoll. by rewrite Hpoll.
Qed.

(** X24. A payment that has not been verified and is older than 30 minutes is
    refused and forgotten: the request clears the payment status, so every
    later request in that session is refused as well, whatever the time and
    the gateway, until a new payment is recorded. *)
Theorem expired_payment_is_forgotten (mpesa : Mpesa.MpesaHandler) (now : Z)
    (gateway : nat → Mpesa.http_reply) (session : session_state)
    (status : PaymentStatus) :
  no_document (current_document_id session) = false →
  payment_verified session = false →
  payment_status session = Some status →
  minutes 30 < now - timestamp status →
  ∃ session',
    handle_download_request mpesa now gateway session = (session', false)
    ∧ payment_status session' = None
    ∧ ∀ mpesa' now' gateway',
        handle_download_request mpesa' now' gateway' session' = (session', false).
Proof.
  intros Hdoc Hverified Hstatus Hage.
  unfold handle_download_request at 1.
  rewrite Hdoc, Hverified, Hstatus. simpl.
  apply Z.ltb_lt in Hage. rewrite Hage.
  eexists. split; [reflexivity|]. split; [reflexivity|].
  intros mpesa' now' gateway'. unfold handle_download_request. simpl.
  by rewrite Hdoc.
Qed.

(** X25. A payment status recorded for another document never authorizes the
    current one, whether the session is marked verified or not and whatever
    the gateway answers. *)
Theorem other_document_never_authorizes (mpesa : Mpesa.MpesaHandler) (now : Z)
    (gateway : nat → Mpesa.http_reply) (session : session_state)
    (status : PaymentStatus) :
  payment_status session = Some status →
  document_id status ≠ current_document_id session →
  (handle_download_request mpesa now gateway session).2 = false.
Proof.
  intros Hstatus Hother. unfold handle_download_request.
  destruct (no_document (current_document_id session)); [done|].
  rewrite Hstatus.
  assert (same_document status (current_document_id session) = false) as Hsame
    by (unfold same_document; by apply bool_decide_eq_false).
  rewrite Hsame, andb_false_r.
  destruct (minutes 30 <? now - timestamp status); [done|].
  unfold verify_payment. by rewrite Hstatus, Hsame.
Qed.

End GuardProperties.

Section TwoPollers.

(** X26. The two polling loops disagree on result code "1": the orchestrator
    takes it for a terminal failure, marks the transaction [failed] and
    stops, while the session guard takes it for a payment still in progress
    and goes on to the next poll. *)
Theorem result_code_1_ends_only_the_orchestrator (mpesa : Mpesa.MpesaHandler)
    (cid : string) (gateway : nat → Mpesa.http_reply) (i : nat) (response : dict) :
  Mpesa.query_stk_push mpesa cid (gateway i) = Ret response →
  result_code response = "1" →
  (∀ tx user clock n st,
     PaymentFlow.poll mpesa tx cid user clock gateway (S n) i st
     = (Database.update_payment_status cid "failed" VNone st,
        PaymentFlow.PaymentFailed))
  ∧ (∀ n, PaymentVerification.poll mpesa cid gateway (S n) i
          = PaymentVerification.poll mpesa cid gateway n (S i)).
Proof.
  intros Hquery Hcode. split.
  - intros tx user clock n st. apply poll_declined.
    unfold declined. by rewrite Hquery, Hcode.
  - intros n. simpl. unfold PaymentVerification.attempt. rewrite Hquery.
    unfold result_code, get in Hcode.
    destruct (response !! "ResultCode") as [[|code|code]|]; simpl in *;
      try done; by rewrite Hcode.
Qed.

End TwoPollers.

(** ** Concrete runs, further *)

(** The full environment without the passkey. *)
Lemma init_rejects_exactly_unconfigured_witness :
  Mpesa.__init__ (delete "SAF_PASS_KEY" Samples.full_env) Samples.token_granted
  = Raise (ValueError "Missing required environment variables.").
Proof.
  apply (proj2 (init_rejects_exactly_unconfigured
                  (delete "SAF_PASS_KEY" Samples.full_env) Samples.token_granted)).
  reflexivity.
Defined.

(** The handler built from the full environment. *)
Lemma init_establishes_configuration_witness :
  configured Samples.full_env = true
  ∧ ∃ token body,
      Samples.token_granted = Mpesa.Reply 200 (Some body)
      ∧ body !! "access_token" = Some (VStr token)
      ∧ (10 ≤ String.length token)%nat
      ∧ Mpesa.access_token Samples.mpesa = VStr token.
Proof.
  apply (init_establishes_configuration Samples.full_env Samples.token_granted
           Samples.mpesa).
  vm_compute. reflexivity.
Defined.


(** The number "+254 712-345-678" and its canonical form. *)
Lemma sanitize_phone_number_by_digits_witness :
  @Mpesa._sanitize_phone_number Samples.runtime (lit "+254 712-345-678")
  = @Mpesa._sanitize_phone_number Samples.runtime (lit "254712345678")
  ∧ (∃ r, @Mpesa._sanitize_phone_number Samples.runtime (lit "+254 712-345-678")
          = Ret r)
  ∧ @Mpesa._sanitize_phone_number Samples.runtime (lit "254712345678")
    = Ret (lit "254712345678").
Proof.
  destruct (@sanitize_phone_number_by_digits Samples.runtime
              (lit "+254 712-345-678")) as (Hdigits & Haccepted & Hagain).
  split; [exact Hdigits|]. split.
  - apply Haccepted. reflexivity.
  - apply Hagain. reflexivity.
Defined.

(** The number "123" offered to a gateway that would accept the request. *)
Lemma initiate_stk_push_invalid_phone_witness :
  @Mpesa.initiate_stk_push Samples.runtime Samples.mpesa (lit "123")
    Samples.push_accepted = Ret Mpesa.stk_validation_error.
Proof.
  apply (@initiate_stk_push_invalid_phone Samples.runtime). reflexivity.
Defined.


(** A valid number checked without the passkey in the environment, and with
    the full environment. *)
Lemma validate_phone_number_needs_configuration_witness :
  @Mpesa.validate_phone_number Samples.runtime
    (delete "SAF_PASS_KEY" Samples.full_env) Samples.token_granted
    (lit "0712345678") = Ret false
  ∧ @Mpesa.validate_phone_number Samples.runtime Samples.full_env
      Samples.token_granted (lit "0712345678") = Ret true.
Proof.
  split.
  - apply (@validate_phone_number_needs_configuration Samples.runtime).
    reflexivity.
  - apply (proj2 (@validate_phone_number_needs_configuration Samples.runtime
                    Samples.full_env Samples.token_granted (lit "0712345678"))
             Samples.mpesa).
    vm_compute. reflexivity.
Defined.

(** A reference of the default length 12 at second 1730000123. *)
Lemma account_reference_has_requested_length_witness :
  String.length (Mpesa.generate_account_reference 1730000123 Samples.draws 12)
  = 12%nat
  ∧ reference_text (Mpesa.generate_account_reference 1730000123 Samples.draws 12)
    = true.
Proof.
  destruct (account_reference_has_requested_length 1730000123 Samples.draws 12)
    as [Hlength Htext].
  split; [apply Hlength; lia|apply Htext; lia].
Defined.

(** A team purchase on the empty store: accepted, and refused for the number
    "123". *)
Lemma initiate_writes_only_on_acceptance_witness :
  (let run :=
     @PaymentFlow.initiate_organization_purchase_with Samples.runtime
       Samples.test_pricing Samples.mpesa "u1" "org_456" "team" 5
       (lit "123") 0 Samples.push_accepted Samples.empty_store in
   match run.2 with
   | PaymentFlow.NotInitiated _ => run.1 = Samples.empty_store
   | PaymentFlow.Initiated checkout_id charged =>
       ∃ tx, run.1 = Database.with_transactions Samples.empty_store
                       (Database.payment_transactions Samples.empty_store ++ [tx])
             ∧ Database.checkout_request_id tx = checkout_id
             ∧ Database.amount tx = charged
             ∧ Database.user_id tx = "u1"
             ∧ Database.payment_status tx = "pending"
             ∧ Database.transaction_type tx = "organization_subscription"
             ∧ Database.transaction_date tx = 0
   end).
Proof.
  apply (@initiate_writes_only_on_acceptance Samples.runtime Samples.test_pricing
           Samples.mpesa "u1" "org_456" "team" 5 (lit "123") 0
           Samples.push_accepted Samples.empty_store).
  apply surjective_pairing.
Defined.

(** One team seat, below the listed minimum of three, at the module's price. *)
Lemma initiate_charges_price_times_seats_witness :
  let run :=
    @PaymentFlow.initiate_organization_purchase_with Samples.runtime
      SubscriptionManager.PRICING Samples.mpesa "u1" "org_456" "team" 1
      (lit "0712345678") 0 Samples.push_accepted Samples.empty_store in
  run.2 = PaymentFlow.Initiated (VStr "ws_CO_1") (650000 * 1)
  ∧ ∃ tx, Database.get_payment_transaction_by_checkout_id run.1 "ws_CO_1" = Some tx
          ∧ Database.amount tx = 650000 * 1
          ∧ Database.metadata tx !! "seats" = Some (VInt 1)
          ∧ Database.metadata tx !! "tier" = Some (VStr "team")
          ∧ Database.metadata tx !! "organization_id" = Some (VStr "org_456").
Proof.
  apply (@initiate_charges_price_times_seats Samples.runtime
           SubscriptionManager.PRICING
           {| SubscriptionManager.amount := 650000;
              SubscriptionManager.documents_per_month := Some 100;
              SubscriptionManager.name := "Team";
              SubscriptionManager.per_user := true;
              SubscriptionManager.min_seats := Some 3;
              SubscriptionManager.trial_days := None |}
           Samples.mpesa "u1" "org_456" "team" 1 (lit "0712345678") 0
           Samples.push_accepted
           {[ "ResponseCode" := VStr "0"; "CheckoutRequestID" := VStr "ws_CO_1" ]}
           "ws_CO_1" Samples.empty_store); reflexivity.
Defined.

(** A second row under "ws_CO_1". *)
Lemma duplicate_checkout_id_hides_transaction_witness :
  let st' :=
    Database.create_payment_transaction "u2" 850000 "organization_subscription"
      (VStr "ws_CO_1") "0f3a9c1e" 0 (VStr "org_789") (VInt 1) (VStr "individual")
      (minutes 3) (Samples.store_of (Samples.team_purchase "pending")) in
  Database.get_payment_transaction_by_checkout_id st' "ws_CO_1" = None
  ∧ PaymentFlow.verify_and_process_payment Samples.mpesa "ws_CO_1" "u1" 6
      (Samples.clock_from 0) (Samples.always (Samples.answered "0" "RCT1")) st'
    = (st', PaymentFlow.TransactionNotFound).
Proof.
  destruct (duplicate_checkout_id_hides_transaction Samples.mpesa "ws_CO_1"
              "u2" 850000 "organization_subscription" "0f3a9c1e" 0
              (VStr "org_789") (VInt 1) (VStr "individual") (minutes 3)
              (Samples.store_of (Samples.team_purchase "pending"))
              (Samples.team_purchase "pending") eq_refl) as [Hnone Hverify].
  split; [exact Hnone|apply Hverify].
Defined.

(** One unsettled poll, then a cancellation. *)
Lemma declined_after_waiting_witness :
  let st := Samples.store_of (Samples.team_purchase "pending") in
  PaymentFlow.verify_and_process_payment Samples.mpesa "ws_CO_1" "u1" 6
    (Samples.clock_from 0)
    (Samples.script [Samples.still_processing; Samples.answered "1032" ""]) st
  = (Database.update_payment_status "ws_CO_1" "failed" VNone st,
     PaymentFlow.PaymentFailed)
  ∧ ∃ tx', Database.get_payment_transaction_by_checkout_id
             (Database.update_payment_status "ws_CO_1" "failed" VNone st) "ws_CO_1"
           = Some tx'
           ∧ Database.payment_status tx' = "failed"
           ∧ Database.mpesa_receipt_number tx'
             = Database.mpesa_receipt_number (Samples.team_purchase "pending").
Proof.
  apply (declined_after_waiting Samples.mpesa "ws_CO_1" "u1" 6
           (Samples.clock_from 0)
           (Samples.script [Samples.still_processing; Samples.answered "1032" ""])
           (Samples.store_of (Samples.team_purchase "pending"))
           (Samples.team_purchase "pending") 1); try reflexivity.
  - simpl. lia.
  - intros [|j] Hj; [reflexivity|lia].
Defined.


(** The verification of "ws_CO_B" in the history. *)
Lemma verification_is_framed_witness :
  framed "ws_CO_B" Samples.history_store
    (PaymentFlow.verify_and_process_payment Samples.mpesa "ws_CO_B" "u1" 6
       (Samples.clock_from (minutes 60))
       (Samples.always (Samples.answered "0" "RCT1")) Samples.history_store).1.
Proof.
  apply (verification_is_framed Samples.mpesa "ws_CO_B" "u1" 6
           (Samples.clock_from (minutes 60))
           (Samples.always (Samples.answered "0" "RCT1")) Samples.history_store).
Defined.

(** The history at minute 60: "ws_CO_B", recorded at minute 50, is offered. *)
Lemma pending_payment_is_the_most_recent_witness :
  ∃ tx, PaymentFlow.get_pending_payment "u1" (minutes 60) Samples.history_store
        = Some tx
        ∧ tx ∈ Database.payment_transactions Samples.history_store
        ∧ Database.user_id tx = "u1"
        ∧ Database.payment_status tx = "pending"
        ∧ minutes 60 - Database.transaction_date tx < minutes 30.
Proof.
  pose proof (pending_payment_is_the_most_recent "u1" (minutes 60)
                Samples.history_store) as Hspec.
  destruct (PaymentFlow.get_pending_payment "u1" (minutes 60) Samples.history_store)
    as [tx|] eqn:Hfound; [|vm_compute in Hfound; discriminate Hfound].
  exists tx. destruct Hspec as (Hin & Huser & Hpending & Hage & _). by repeat split.
Defined.

(** "ws_CO_B" verified at minute 60; the next offer is another payment. *)
Lemma verified_transaction_is_not_pending_witness :
  let run :=
    PaymentFlow.verify_and_process_payment Samples.mpesa "ws_CO_B" "u1" 6
      (Samples.clock_from (minutes 60))
      (Samples.always (Samples.answered "0" "RCT1")) Samples.history_store in
  ∃ tx, PaymentFlow.get_pending_payment "u1" (minutes 61) run.1 = Some tx
        ∧ Database.checkout_request_id tx ≠ VStr "ws_CO_B".
Proof.
  intros run.
  destruct (PaymentFlow.get_pending_payment "u1" (minutes 61) run.1) as [tx|]
    eqn:Hfound; [|vm_compute in Hfound; discriminate Hfound].
  exists tx. split; [reflexivity|].
  apply (verified_transaction_is_not_pending Samples.mpesa "ws_CO_B" "u1" 6
           (Samples.clock_from (minutes 60))
           (Samples.always (Samples.answered "0" "RCT1")) Samples.history_store
           run.1 run.2 (surjective_pairing _) eq_refl "u1" (minutes 61) tx Hfound).
Defined.

(** A purchase initiated at minute 60 on the history, looked for at minute 80. *)
Lemma initiated_transaction_is_pending_witness :
  let run :=
    @PaymentFlow.initiate_organization_purchase_with Samples.runtime
      Samples.test_pricing Samples.mpesa "u1" "org_456" "team" 5
      (lit "0712345678") (minutes 60) Samples.push_accepted Samples.history_store in
  ∃ tx, PaymentFlow.get_pending_payment "u1" (minutes 80) run.1 = Some tx
        ∧ Database.payment_status tx = "pending"
        ∧ minutes 60 ≤ Database.transaction_date tx.
Proof.
  intros run.
  apply (@initiated_transaction_is_pending Samples.runtime Samples.test_pricing
           Samples.mpesa "u1" "org_456" "team" 5 (lit "0712345678") (minutes 60)
           Samples.push_accepted Samples.history_store run.1 (VStr "ws_CO_1") 32500
           (minutes 80)).
  - reflexivity.
  - vm_compute. reflexivity.
Defined.

(** Five credits taken from a balance of three. *)
Lemma credits_update_clamps_at_zero_witness :
  ∃ updated,
    (Database.update_subscription_credits "u1" (-5) Samples.history_store).2
    = Some updated
    ∧ Database.credits_remaining updated = 0
    ∧ Database.get_user_subscription
        (Database.update_subscription_credits "u1" (-5) Samples.history_store).1 "u2"
      = Database.get_user_subscription Samples.history_store "u2".
Proof.
  pose proof (credits_update_clamps_at_zero "u1" (-5) Samples.history_store) as Hspec.
  destruct (Database.get_user_subscription Samples.history_store "u1") as [sub|]
    eqn:Hsub; [|vm_compute in Hsub; discriminate Hsub].
  destruct Hspec as (updated & Hret & _ & Hbalance & _ & _ & Hothers & _).
  exists updated. split; [exact Hret|]. split.
  - rewrite Hbalance. vm_compute in Hsub. injection Hsub as <-. reflexivity.
  - apply Hothers. discriminate.
Defined.

(** A first and a second subscription for "org_456". *)
Lemma organization_subscription_after_creation_witness :
  let first :=
    Database.create_organization_subscription (VStr "org_456") (VStr "team")
      (VInt 5) 650000 0 Samples.empty_store in
  (∃ sub, Database.get_organization_subscription first "org_456" = Some sub
          ∧ Database.current_period_end sub = 0 + days 30)
  ∧ Database.get_organization_subscription
      (Database.create_organization_subscription (VStr "org_456") (VStr "team")
         (VInt 5) 650000 (days 30) first) "org_456" = None.
Proof.
  intros first. split.
  - pose proof (organization_subscription_after_creation "org_456" (VStr "team")
                  (VInt 5) 650000 0 Samples.empty_store) as Hspec.
    change (Database.get_organization_subscription Samples.empty_store "org_456")
      with (@None Database.organization_subscription) in Hspec.
    destruct (Hspec eq_refl) as (sub & Hget & _ & _ & _ & _ & _ & Hend & _).
    exists sub. by split.
  - pose proof (organization_subscription_after_creation "org_456" (VStr "team")
                  (VInt 5) 650000 (days 30) first) as Hspec.
    destruct (Database.get_organization_subscription first "org_456") as [sub|]
      eqn:Hsub; [exact Hspec|vm_compute in Hsub; discriminate Hsub].
Defined.

(** Completed with receipt "RCT1", then failed. *)
Lemma receipt_survives_later_status_witness :
  ∃ tx',
    Database.get_payment_transaction_by_checkout_id
      (Database.update_payment_status "ws_CO_1" "failed" VNone
         (Database.update_payment_status "ws_CO_1" "completed" (VStr "RCT1")
            (Samples.store_of (Samples.orphan_purchase "pending")))) "ws_CO_1"
    = Some tx'
    ∧ Database.payment_status tx' = "failed"
    ∧ Database.mpesa_receipt_number tx' = VStr "RCT1".
Proof.
  apply (receipt_survives_later_status "ws_CO_1" "completed" "failed" (VStr "RCT1")
           (Samples.store_of (Samples.orphan_purchase "pending"))
           (Samples.orphan_purchase "pending")); reflexivity.
Defined.

(** The paying session polled by a gateway that answers at the second poll. *)
Lemma verify_payment_first_settled_poll_witness :
  PaymentVerification.verify_payment Samples.mpesa Samples.paying_session
    "ws_CO_1" (Some "doc_1") 5
    (Samples.script [Samples.still_processing; Samples.answered "0" "RCT1"])
  = true.
Proof.
  apply (proj2 (verify_payment_first_settled_poll Samples.mpesa
                  Samples.paying_session "ws_CO_1" (Some "doc_1") 5
                  (Samples.script [Samples.still_processing;
                                   Samples.answered "0" "RCT1"]))).
  split.
  - eexists. split; reflexivity.
  - exists 1%nat. split; [simpl; lia|]. split; [reflexivity|].
    intros [|j] Hj; [reflexivity|lia].
Defined.

(** The paying session verified at minute 1, asked again two hours later with
    no gateway. *)
Lemma authorization_sticks_witness :
  PaymentVerification.handle_download_request Samples.mpesa (minutes 120)
    (Samples.always Mpesa.NoReply) Samples.verified_session
  = (Samples.verified_session, true).
Proof.
  apply (authorization_sticks Samples.mpesa (minutes 1)
           (Samples.always (Samples.answered "0" "RCT1")) Samples.paying_session
           Samples.verified_session).
  reflexivity.
Defined.

(** The verified session after a new document, and after a new payment that
    the gateway does not confirm. *)
Lemma new_document_or_payment_withdraws_authorization_witness :
  PaymentVerification.handle_download_request Samples.mpesa (minutes 2)
    (Samples.always (Samples.answered "0" "RCT1"))
    (PaymentVerification.reset_payment_state "doc_2" Samples.verified_session)
  = (PaymentVerification.reset_payment_state "doc_2" Samples.verified_session, false)
  ∧ (PaymentVerification.handle_download_request Samples.mpesa (minutes 2)
       (Samples.always Samples.still_processing)
       (PaymentVerification.update_payment_status "ws_CO_2" 100 (minutes 1)
          Samples.verified_session)).2 = false.
Proof.
  split.
  - apply (proj1 (new_document_or_payment_withdraws_authorization Samples.mpesa
                    (minutes 2) (Samples.always (Samples.answered "0" "RCT1"))
                    Samples.verified_session)).
  - apply (proj2 (new_document_or_payment_withdraws_authorization Samples.mpesa
                    (minutes 2) (Samples.always Samples.still_processing)
                    Samples.verified_session)).
    reflexivity.
Defined.

(** The paying session asked at minute 31, and what is left of it. *)
Lemma expired_payment_is_forgotten_witness :
  ∃ session',
    PaymentVerification.handle_download_request Samples.mpesa (minutes 31)
      (Samples.always (Samples.answered "0" "RCT1")) Samples.paying_session
    = (session', false)
    ∧ PaymentVerification.payment_status session' = None
    ∧ ∀ mpesa' now' gateway',
        PaymentVerification.handle_download_request mpesa' now' gateway' session'
        = (session', false).
Proof.
  apply (expired_payment_is_forgotten Samples.mpesa (minutes 31)
           (Samples.always (Samples.answered "0" "RCT1")) Samples.paying_session
           {| PaymentVerification.document_id := Some "doc_1";
              PaymentVerification.checkout_request_id := "ws_CO_1";
              PaymentVerification.amount := 100;
              PaymentVerification.timestamp := 0;
              PaymentVerification.verified := false;
              PaymentVerification.attempts := 0 |});
    reflexivity.
Defined.

(** A verified payment for "doc_1" presented for "doc_2". *)
Lemma other_document_never_authorizes_witness :
  (PaymentVerification.handle_download_request Samples.mpesa (minutes 2)
     (Samples.always (Samples.answered "0" "RCT1"))
     Samples.other_document_session).2 = false.
Proof.
  apply (other_document_never_authorizes Samples.mpesa (minutes 2)
           (Samples.always (Samples.answered "0" "RCT1"))
           Samples.other_document_session
           {| PaymentVerification.document_id := Some "doc_1";
              PaymentVerification.checkout_request_id := "ws_CO_1";
              PaymentVerification.amount := 100;
              PaymentVerification.timestamp := 0;
              PaymentVerification.verified := false;
              PaymentVerification.attempts := 0 |}).
  - reflexivity.
  - discriminate.
Defined.

(** Result code "1", then the success code. *)
Lemma result_code_1_ends_only_the_orchestrator_witness :
  let gateway := Samples.script [Samples.answered "1" ""; Samples.answered "0" "RCT1"] in
  let st := Samples.store_of (Samples.team_purchase "pending") in
  PaymentFlow.poll Samples.mpesa (Samples.team_purchase "pending") "ws_CO_1" "u1"
    (Samples.clock_from 0) gateway 6 0 st
  = (Database.update_payment_status "ws_CO_1" "failed" VNone st,
     PaymentFlow.PaymentFailed)
  ∧ PaymentVerification.poll Samples.mpesa "ws_CO_1" gateway 5 0
    = PaymentVerification.poll Samples.mpesa "ws_CO_1" gateway 4 1.
Proof.
  intros gateway st.
  destruct (result_code_1_ends_only_the_orchestrator Samples.mpesa "ws_CO_1"
              gateway 0 {[ "ResultCode" := VStr "1"; "MpesaReceiptNumber" := VStr "" ]}
              eq_refl eq_refl) as [Hflow Hguard].
  split; [apply Hflow|apply Hguard].
Defined.
